(** * ARM7TDMI core of gba-mu: a shallow embedding of src/ARM7TDMI.cpp

    The processor object is a record; member functions that mutate it are
    state-passing functions.  Unsigned C++ integers are modelled as [Z] with
    the wrap-around written out; the two places where C++ leaves the result
    open (a shift by 32 or more, a failing [assert]) are faults of a small
    state-and-error monad. *)

From Stdlib Require Import ZArith Bool List Lia.
Import ListNotations.
Local Open Scope Z_scope.

(** ** Fixed-width integers *)

Definition wrap8 (x : Z) : Z := x mod 2 ^ 8.
Definition wrap32 (x : Z) : Z := x mod 2 ^ 32.

(** [~x] on a [uint32_t]. *)
Definition not32 (x : Z) : Z := wrap32 (Z.lnot x).

(** [(int32_t)x] for a 32-bit pattern [x]. *)
Definition signed32 (x : Z) : Z := if x <? 2 ^ 31 then x else x - 2 ^ 32.

(** A C++ integer used as a condition. *)
Definition truthy (x : Z) : bool := negb (x =? 0).

(** Assignment to a one-bit and to a five-bit bit-field. *)
Definition bit1 (x : Z) : Z := x mod 2.
Definition bit5 (x : Z) : Z := x mod 32.

(** ** Faults *)

Inductive fault : Type :=
| AssertionFailed   (* an [assert] whose condition is false *)
| UndefinedShift.   (* a shift whose count is not below the operand width *)

Inductive result (A : Type) : Type :=
| Ok (a : A)
| Fault (f : fault).
Arguments Ok {A} a.
Arguments Fault {A} f.

(** The built-in shifts of C++ on a [uint32_t] left operand.  The count is
    the value of the (promoted) right operand. *)
Definition shl32 (v n : Z) : result Z :=
  if (0 <=? n) && (n <? 32) then Ok (wrap32 (Z.shiftl v n)) else Fault UndefinedShift.

Definition shr32 (v n : Z) : result Z :=
  if (0 <=? n) && (n <? 32) then Ok (Z.shiftr v n) else Fault UndefinedShift.

(** [>>] on an [int32_t] left operand: arithmetic, as the source assumes. *)
Definition sar32 (v n : Z) : result Z :=
  if (0 <=? n) && (n <? 32) then Ok (wrap32 (Z.shiftr (signed32 v) n))
  else Fault UndefinedShift.

(** ** Data model (ARM7TDMI.h) *)

Record ProgramStatusRegister : Type := mkPsr {
  psr_Mode : Z;      (* uint8_t Mode : 5 *)
  psr_T : Z;         (* uint8_t T : 1 *)
  psr_F : Z;
  psr_I : Z;
  psr_Reserved : Z;  (* uint32_t Reserved : 19 *)
  psr_Q : Z;
  psr_V : Z;
  psr_C : Z;
  psr_Z : Z;
  psr_N : Z
}.

Record Cycles : Type := mkCycles {
  nonSequentialCycles : Z;
  sequentialCycles : Z;
  internalCycles : Z;
  waitState : Z
}.

(** The value of [return {};]. *)
Definition noCycles : Cycles := mkCycles 0 0 0 0.

Record AluShiftResult : Type := mkAluShiftResult {
  op2 : Z;
  carry : Z
}.

(** enum Mode *)
Definition USER : Z := 16.
Definition FIQ : Z := 17.
Definition IRQ : Z := 18.
Definition SUPERVISOR : Z := 19.
Definition ABORT : Z := 23.
Definition UNDEFINED : Z := 27.
Definition SYSTEM : Z := 31.

(** enum AluOpcode *)
Definition AND : Z := 0x0.
Definition EOR : Z := 0x1.
Definition SUB : Z := 0x2.
Definition RSB : Z := 0x3.
Definition ADD : Z := 0x4.
Definition ADC : Z := 0x5.
Definition SBC : Z := 0x6.
Definition RSC : Z := 0x7.
Definition TST : Z := 0x8.
Definition TEQ : Z := 0x9.
Definition CMP : Z := 0xA.
Definition CMN : Z := 0xB.
Definition ORR : Z := 0xC.
Definition MOV : Z := 0xD.
Definition BIC : Z := 0xE.
Definition MVN : Z := 0xF.

Definition PC_REGISTER : Z := 15.
Definition LINK_REGISTER : Z := 14.
Definition SP_REGISTER : Z := 13.
Definition BOOT_LOCATION : Z := 0x0.

(** Physical storage: the array [registers] (r0..r15) and the banked
    variables r8_fiq..r14_fiq, r13_irq, r14_irq, r13_svc, ... of the header. *)
Inductive bank : Type := BUser | BFiq | BIrq | BSvc | BAbt | BUnd.

Inductive cell : Type := Cell (b : bank) (i : Z).

Definition bank_eqb (a b : bank) : bool :=
  match a, b with
  | BUser, BUser | BFiq, BFiq | BIrq, BIrq
  | BSvc, BSvc | BAbt, BAbt | BUnd, BUnd => true
  | _, _ => false
  end.

Definition cell_eqb (c d : cell) : bool :=
  match c, d with
  | Cell b i, Cell b' i' => bank_eqb b b' && (i =? i')
  end.

Record ARM7TDMI : Type := mkCpu {
  regs : cell -> Z;
  cpsr : ProgramStatusRegister;
  SPSR_fiq : ProgramStatusRegister;
  SPSR_svc : ProgramStatusRegister;
  SPSR_abt : ProgramStatusRegister;
  SPSR_irq : ProgramStatusRegister;
  SPSR_und : ProgramStatusRegister;
  overflowBit : Z;   (* uint8_t *)
  carryBit : Z;
  zeroBit : Z;
  signBit : Z
}.

(** Field assignments. *)
Definition set_regs (f : cell -> Z) (s : ARM7TDMI) : ARM7TDMI :=
  mkCpu f (cpsr s) (SPSR_fiq s) (SPSR_svc s) (SPSR_abt s) (SPSR_irq s)
        (SPSR_und s) (overflowBit s) (carryBit s) (zeroBit s) (signBit s).

Definition set_cpsr (p : ProgramStatusRegister) (s : ARM7TDMI) : ARM7TDMI :=
  mkCpu (regs s) p (SPSR_fiq s) (SPSR_svc s) (SPSR_abt s) (SPSR_irq s)
        (SPSR_und s) (overflowBit s) (carryBit s) (zeroBit s) (signBit s).

Definition set_overflowBit (v : Z) (s : ARM7TDMI) : ARM7TDMI :=
  mkCpu (regs s) (cpsr s) (SPSR_fiq s) (SPSR_svc s) (SPSR_abt s) (SPSR_irq s)
        (SPSR_und s) v (carryBit s) (zeroBit s) (signBit s).

Definition set_carryBit (v : Z) (s : ARM7TDMI) : ARM7TDMI :=
  mkCpu (regs s) (cpsr s) (SPSR_fiq s) (SPSR_svc s) (SPSR_abt s) (SPSR_irq s)
        (SPSR_und s) (overflowBit s) v (zeroBit s) (signBit s).

Definition set_zeroBit (v : Z) (s : ARM7TDMI) : ARM7TDMI :=
  mkCpu (regs s) (cpsr s) (SPSR_fiq s) (SPSR_svc s) (SPSR_abt s) (SPSR_irq s)
        (SPSR_und s) (overflowBit s) (carryBit s) v (signBit s).

Definition set_signBit (v : Z) (s : ARM7TDMI) : ARM7TDMI :=
  mkCpu (regs s) (cpsr s) (SPSR_fiq s) (SPSR_svc s) (SPSR_abt s) (SPSR_irq s)
        (SPSR_und s) (overflowBit s) (carryBit s) (zeroBit s) v.

Definition psr_set_Mode (m : Z) (p : ProgramStatusRegister) : ProgramStatusRegister :=
  mkPsr (bit5 m) (psr_T p) (psr_F p) (psr_I p) (psr_Reserved p) (psr_Q p)
        (psr_V p) (psr_C p) (psr_Z p) (psr_N p).

Definition psr_set_T (v : Z) (p : ProgramStatusRegister) : ProgramStatusRegister :=
  mkPsr (psr_Mode p) (bit1 v) (psr_F p) (psr_I p) (psr_Reserved p) (psr_Q p)
        (psr_V p) (psr_C p) (psr_Z p) (psr_N p).

Definition psr_set_V (v : Z) (p : ProgramStatusRegister) : ProgramStatusRegister :=
  mkPsr (psr_Mode p) (psr_T p) (psr_F p) (psr_I p) (psr_Reserved p) (psr_Q p)
        (bit1 v) (psr_C p) (psr_Z p) (psr_N p).

Definition psr_set_C (v : Z) (p : ProgramStatusRegister) : ProgramStatusRegister :=
  mkPsr (psr_Mode p) (psr_T p) (psr_F p) (psr_I p) (psr_Reserved p) (psr_Q p)
        (psr_V p) (bit1 v) (psr_Z p) (psr_N p).

Definition psr_set_Z (v : Z) (p : ProgramStatusRegister) : ProgramStatusRegister :=
  mkPsr (psr_Mode p) (psr_T p) (psr_F p) (psr_I p) (psr_Reserved p) (psr_Q p)
        (psr_V p) (psr_C p) (bit1 v) (psr_N p).

Definition psr_set_N (v : Z) (p : ProgramStatusRegister) : ProgramStatusRegister :=
  mkPsr (psr_Mode p) (psr_T p) (psr_F p) (psr_I p) (psr_Reserved p) (psr_Q p)
        (psr_V p) (psr_C p) (psr_Z p) (bit1 v).

(** [*p = v] on the register storage. *)
Definition store (c : cell) (v : Z) (f : cell -> Z) : cell -> Z :=
  fun d => if cell_eqb d c then v else f d.

(** ** Bank tables *)

(** Modelled from the spec: the pointer table [fiqRegisters] that getRegister
    and setRegister dereference is not declared in the sources.  The spec
    gives its contents: FIQ mode has its own R8-R14, every other entry is
    the cell of [registers]. *)
Definition fiqRegisters (index : Z) : cell :=
  if (8 <=? index) && (index <=? 14) then Cell BFiq index else Cell BUser index.

(** Modelled from the spec: the pointer table [irqRegisters], not declared in
    the sources.  IRQ mode has its own R13-R14. *)
Definition irqRegisters (index : Z) : cell :=
  if (13 <=? index) && (index <=? 14) then Cell BIrq index else Cell BUser index.

(** Modelled from the spec: the pointer table [svcRegisters], not declared in
    the sources.  Supervisor mode has its own R13-R14. *)
Definition svcRegisters (index : Z) : cell :=
  if (13 <=? index) && (index <=? 14) then Cell BSvc index else Cell BUser index.

(** Modelled from the spec: the pointer table [abtRegisters], not declared in
    the sources.  Abort mode has its own R13-R14. *)
Definition abtRegisters (index : Z) : cell :=
  if (13 <=? index) && (index <=? 14) then Cell BAbt index else Cell BUser index.

(** Modelled from the spec: the pointer table [undRegisters], not declared in
    the sources.  Undefined mode has its own R13-R14. *)
Definition undRegisters (index : Z) : cell :=
  if (13 <=? index) && (index <=? 14) then Cell BUnd index else Cell BUser index.

(** ** Register and status access (ARM7TDMI.cpp, lines 420-474)

    The arrays have sixteen entries; every call site passes a four-bit
    field, and the statements below about a register index keep it in
    0..15. *)

Definition getModeSpsr (s : ARM7TDMI) : ProgramStatusRegister :=
  let m := psr_Mode (cpsr s) in
  if m =? USER then cpsr s
  else if m =? FIQ then SPSR_fiq s
  else if m =? IRQ then SPSR_irq s
  else if m =? SUPERVISOR then SPSR_svc s
  else if m =? ABORT then SPSR_abt s
  else if m =? UNDEFINED then SPSR_und s
  else cpsr s.

Definition getRegister (index : Z) (s : ARM7TDMI) : Z :=
  let m := psr_Mode (cpsr s) in
  if m =? USER then regs s (Cell BUser index)
  else if m =? FIQ then regs s (fiqRegisters index)
  else if m =? IRQ then regs s (irqRegisters index)
  else if m =? SUPERVISOR then regs s (svcRegisters index)
  else if m =? ABORT then regs s (abtRegisters index)
  else if m =? UNDEFINED then regs s (undRegisters index)
  else regs s (Cell BUser index).

Definition setRegister (index value : Z) (s : ARM7TDMI) : ARM7TDMI :=
  let m := psr_Mode (cpsr s) in
  if m =? USER then set_regs (store (Cell BUser index) value (regs s)) s
  else if m =? FIQ then set_regs (store (fiqRegisters index) value (regs s)) s
  else if m =? IRQ then set_regs (store (irqRegisters index) value (regs s)) s
  else if m =? SUPERVISOR then set_regs (store (svcRegisters index) value (regs s)) s
  else if m =? ABORT then set_regs (store (abtRegisters index) value (regs s)) s
  else if m =? UNDEFINED then set_regs (store (undRegisters index) value (regs s)) s
  else set_regs (store (Cell BUser index) value (regs s)) s.

(** Modelled from the spec: [switchToMode] is declared in the header and has
    no body in the sources.  Selecting a bank is the assignment of the mode
    field, as the constructor does with [cpsr.Mode = SUPERVISOR]; the tables
    above then resolve every later access. *)
Definition switchToMode (mode : Z) (s : ARM7TDMI) : ARM7TDMI :=
  set_cpsr (psr_set_Mode mode (cpsr s)) s.

(** ** Flag predicates (lines 480-530) *)

Definition aluSetsZeroBit (value : Z) : bool := value =? 0.

Definition aluSetsSignBit (value : Z) : bool := truthy (Z.shiftr value 31).

Definition aluSubtractSetsCarryBit (rnValue op2 : Z) : bool :=
  negb (rnValue <? op2).

Definition aluSubtractSetsOverflowBit (rnValue op2 result : Z) : bool :=
  (negb (truthy (Z.land rnValue 0x80000000)) && truthy (Z.land op2 0x80000000)
     && truthy (Z.land result 0x80000000))
  || (truthy (Z.land rnValue 0x80000000) && negb (truthy (Z.land op2 0x80000000))
     && negb (truthy (Z.land result 0x80000000))).

Definition aluAddSetsCarryBit (rnValue op2 : Z) : bool :=
  wrap32 (0xFFFFFFFF - op2) <? rnValue.

Definition aluAddSetsOverflowBit (rnValue op2 result : Z) : bool :=
  (truthy (Z.land rnValue 0x80000000) && truthy (Z.land op2 0x80000000)
     && negb (truthy (Z.land result 0x80000000)))
  || (negb (truthy (Z.land rnValue 0x80000000)) && negb (truthy (Z.land op2 0x80000000))
     && truthy (Z.land result 0x80000000)).

Definition aluAddWithCarrySetsCarryBit (result : Z) : bool :=
  truthy (Z.shiftr result 32).

Definition aluAddWithCarrySetsOverflowBit (rnValue op2 result : Z) (s : ARM7TDMI) : bool :=
  let sum := wrap32 (rnValue + op2) in
  (truthy (Z.land rnValue 0x80000000) && truthy (Z.land op2 0x80000000)
     && negb (truthy (Z.land sum 0x80000000)))
  || (negb (truthy (Z.land rnValue 0x80000000)) && negb (truthy (Z.land op2 0x80000000))
     && truthy (Z.land sum 0x80000000))
  || (negb (truthy (Z.land sum 0x80000000))
     && negb (truthy (Z.land (psr_C (cpsr s)) 0x80000000))
     && truthy (Z.land result 0x80000000)).

Definition aluSubWithCarrySetsCarryBit (result : Z) : bool :=
  negb (truthy (Z.shiftr result 32)).

Definition aluSubWithCarrySetsOverflowBit (rnValue op2 result : Z) (s : ARM7TDMI) : bool :=
  let sum := wrap32 (rnValue + not32 op2) in
  (truthy (Z.land rnValue 0x80000000) && truthy (Z.land (not32 op2) 0x80000000)
     && negb (truthy (Z.land sum 0x80000000)))
  || (negb (truthy (Z.land rnValue 0x80000000))
     && negb (truthy (Z.land (not32 op2) 0x80000000))
     && truthy (Z.land sum 0x80000000))
  || (negb (truthy (Z.land sum 0x80000000))
     && negb (truthy (Z.land (psr_C (cpsr s)) 0x80000000))
     && truthy (Z.land result 0x80000000)).

(** ** The data-processing switch (lines 88-199)

    No case of the switch ends in [break], so control entering at the
    matching label runs every later case body as well.  [switch] is that
    control flow; the case bodies follow, one definition per label. *)

Fixpoint fallthrough {S : Type} (cases : list (Z * (S -> S))) (s : S) : S :=
  match cases with
  | [] => s
  | (_, body) :: rest => fallthrough rest (body s)
  end.

Fixpoint switch {S : Type} (x : Z) (cases : list (Z * (S -> S))) (s : S) : S :=
  match cases with
  | [] => s
  | (label, body) :: rest =>
      if x =? label then fallthrough cases s else switch x rest s
  end.

Definition setZeroSign (result : Z) (s : ARM7TDMI) : ARM7TDMI :=
  set_signBit (Z.b2z (aluSetsSignBit result))
    (set_zeroBit (Z.b2z (aluSetsZeroBit result)) s).

Definition setCarryOverflow (c v : bool) (s : ARM7TDMI) : ARM7TDMI :=
  set_overflowBit (Z.b2z v) (set_carryBit (Z.b2z c) s).

Section AluCases.
(** [rd] is a [uint32_t] here and converts to the [uint8_t] index of
    setRegister at each call. *)
Variables rd rnVal operand2 : Z.

Definition caseAND (s : ARM7TDMI) : ARM7TDMI :=
  let result := Z.land rnVal operand2 in
  setZeroSign result (setRegister (wrap8 rd) result s).

Definition caseEOR (s : ARM7TDMI) : ARM7TDMI :=
  let result := Z.lxor rnVal operand2 in
  setZeroSign result (setRegister (wrap8 rd) result s).

Definition caseSUB (s : ARM7TDMI) : ARM7TDMI :=
  let result := wrap32 (rnVal - operand2) in
  setCarryOverflow (aluSubtractSetsCarryBit rnVal operand2)
                   (aluSubtractSetsOverflowBit rnVal operand2 result)
    (setZeroSign result (setRegister (wrap8 rd) result s)).

Definition caseRSB (s : ARM7TDMI) : ARM7TDMI :=
  let result := wrap32 (operand2 - rnVal) in
  setCarryOverflow (aluSubtractSetsCarryBit operand2 rnVal)
                   (aluSubtractSetsOverflowBit operand2 rnVal result)
    (setZeroSign result (setRegister (wrap8 rd) result s)).

Definition caseADD (s : ARM7TDMI) : ARM7TDMI :=
  let result := wrap32 (rnVal + operand2) in
  setCarryOverflow (aluAddSetsCarryBit rnVal operand2)
                   (aluAddSetsOverflowBit rnVal operand2 result)
    (setZeroSign result (setRegister (wrap8 rd) result s)).

(** The sums of the carry-in forms are 32-bit sums: the operands are
    [uint32_t], and only the finished sum is widened to [uint64_t]. *)
Definition caseADC (s : ARM7TDMI) : ARM7TDMI :=
  let result := wrap32 (wrap32 (rnVal + operand2) + psr_C (cpsr s)) in
  let s1 := setZeroSign (wrap32 result) (setRegister (wrap8 rd) (wrap32 result) s) in
  setCarryOverflow (aluAddWithCarrySetsCarryBit result)
                   (aluAddWithCarrySetsOverflowBit rnVal operand2 (wrap32 result) s1)
    s1.

Definition caseSBC (s : ARM7TDMI) : ARM7TDMI :=
  let result := wrap32 (wrap32 (rnVal + not32 operand2) + psr_C (cpsr s)) in
  let s1 := setZeroSign (wrap32 result) (setRegister (wrap8 rd) (wrap32 result) s) in
  setCarryOverflow (aluSubWithCarrySetsCarryBit result)
                   (aluSubWithCarrySetsOverflowBit rnVal operand2 (wrap32 result) s1)
    s1.

Definition caseRSC (s : ARM7TDMI) : ARM7TDMI :=
  let result := wrap32 (wrap32 (operand2 + not32 rnVal) + psr_C (cpsr s)) in
  let s1 := setZeroSign (wrap32 result) (setRegister (wrap8 rd) (wrap32 result) s) in
  setCarryOverflow (aluSubWithCarrySetsCarryBit result)
                   (aluSubWithCarrySetsOverflowBit operand2 rnVal (wrap32 result) s1)
    s1.

Definition caseTST (s : ARM7TDMI) : ARM7TDMI :=
  setZeroSign (Z.land rnVal operand2) s.

Definition caseTEQ (s : ARM7TDMI) : ARM7TDMI :=
  setZeroSign (Z.lxor rnVal operand2) s.

Definition caseCMP (s : ARM7TDMI) : ARM7TDMI :=
  let result := wrap32 (rnVal - operand2) in
  setCarryOverflow (aluSubtractSetsCarryBit rnVal operand2)
                   (aluSubtractSetsOverflowBit rnVal operand2 result)
    (setZeroSign result s).

Definition caseCMN (s : ARM7TDMI) : ARM7TDMI :=
  let result := wrap32 (rnVal + operand2) in
  setCarryOverflow (aluAddSetsCarryBit rnVal operand2)
                   (aluAddSetsOverflowBit rnVal operand2 result)
    (setZeroSign result s).

Definition caseORR (s : ARM7TDMI) : ARM7TDMI :=
  let result := Z.lor rnVal operand2 in
  setZeroSign result (setRegister (wrap8 rd) result s).

Definition caseMOV (s : ARM7TDMI) : ARM7TDMI :=
  let result := operand2 in
  setZeroSign result (setRegister (wrap8 rd) result s).

Definition caseBIC (s : ARM7TDMI) : ARM7TDMI :=
  let result := Z.land rnVal (not32 operand2) in
  setZeroSign result (setRegister (wrap8 rd) result s).

Definition caseMVN (s : ARM7TDMI) : ARM7TDMI :=
  let result := not32 operand2 in
  setZeroSign result (setRegister (wrap8 rd) result s).

Definition aluCases : list (Z * (ARM7TDMI -> ARM7TDMI)) :=
  [ (AND, caseAND); (EOR, caseEOR); (SUB, caseSUB); (RSB, caseRSB);
    (ADD, caseADD); (ADC, caseADC); (SBC, caseSBC); (RSC, caseRSC);
    (TST, caseTST); (TEQ, caseTEQ); (CMP, caseCMP); (CMN, caseCMN);
    (ORR, caseORR); (MOV, caseMOV); (BIC, caseBIC); (MVN, caseMVN) ].
End AluCases.

(** The function has no [return] statement; what it does to the processor
    object is its whole model.  [opcode] is a [uint8_t] in the source: the
    model is the code for 0 <= opcode <= 255, and every statement about it
    keeps the opcode in that range. *)
Definition executeAluInstructionOperation
    (opcode rd rnVal operand2 : Z) (s : ARM7TDMI) : ARM7TDMI :=
  switch opcode (aluCases rd rnVal operand2) s.

(** ** The state-and-error monad of the stateful member functions *)

Definition M (A : Type) : Type := ARM7TDMI -> result (A * ARM7TDMI).

Definition ret {A : Type} (a : A) : M A := fun s => Ok (a, s).

Definition bind {A B : Type} (m : M A) (k : A -> M B) : M B :=
  fun s => match m s with
           | Ok (a, s') => k a s'
           | Fault f => Fault f
           end.

Definition gets {A : Type} (f : ARM7TDMI -> A) : M A := fun s => Ok (f s, s).

Definition modify (f : ARM7TDMI -> ARM7TDMI) : M unit := fun s => Ok (tt, f s).

Definition lift {A : Type} (r : result A) : M A :=
  fun s => match r with Ok a => Ok (a, s) | Fault f => Fault f end.

Definition assert (b : bool) : M unit :=
  fun s => if b then Ok (tt, s) else Fault AssertionFailed.

Declare Scope cpu_scope.
Delimit Scope cpu_scope with cpu.
Notation "x <- m ;; k" := (bind m (fun x => k))
  (at level 61, m at next level, right associativity) : cpu_scope.
Notation "m ;; k" := (bind m (fun _ => k))
  (at level 61, right associativity) : cpu_scope.
Local Open Scope cpu_scope.

(** ** Shift helpers (lines 390-410); the count parameter is a [uint8_t]. *)

Definition aluShiftLsl (value shift : Z) : M Z := lift (shl32 value shift).

Definition aluShiftLsr (value shift : Z) : M Z := lift (shr32 value shift).

Definition aluShiftAsr (value shift : Z) : M Z := lift (sar32 value shift).

Definition aluShiftRor (value shift : Z) : M Z :=
  assert (shift <? 32) ;;
  lo <- lift (shr32 value shift) ;;
  hi <- lift (shl32 value (Z.land (wrap32 (- shift)) 31)) ;;
  ret (Z.lor lo hi).

(** aluShiftRrx (lines 413-417): the rotate of aluShiftRor with the carry
    flag or-ed into bit 31. *)
Definition aluShiftRrx (value shift : Z) : M Z :=
  assert (shift <? 32) ;;
  rrxMask <- gets (fun s => wrap32 (psr_C (cpsr s))) ;;
  lo <- lift (shr32 value shift) ;;
  hi <- lift (shl32 value (Z.land (wrap32 (- shift)) 31)) ;;
  top <- lift (shl32 rrxMask 31) ;;
  ret (Z.lor (Z.lor lo hi) top).

(** ** The barrel shifter (lines 261-386)

    [aluShift] writes the member [carryBit] on its way and returns it next
    to the shifted operand.  In [instruction & 0x00000F80 >> 7U] the shift
    binds tighter than the mask, so the mask applied is [0x00000F80 >> 7]. *)

Definition readC : M Z := gets (fun s => psr_C (cpsr s)).

Definition aluShift (instruction : Z) (i r : bool) : M AluShiftResult :=
  if i then
    (* shifted immediate value as 2nd operand; [is_] is the local [is] *)
    let rm := Z.land instruction 0x000000FF in
    let is_ := wrap8 (Z.shiftr (Z.land instruction 0x00000F00) 7) in
    shifted <- aluShiftRor rm (wrap8 (is_ mod 32)) ;;
    (if 0 <? is_ then
       c <- lift (shr32 rm (is_ - 1)) ;;
       modify (set_carryBit (wrap8 c))
     else ret tt) ;;
    cb <- gets carryBit ;;
    ret (mkAluShiftResult shifted cb)
  else
    (* shifted register value as 2nd operand *)
    let shiftType := wrap8 (Z.shiftr (Z.land instruction 0x00000060) 5) in
    let rmIndex := wrap8 (Z.land instruction 0x0000000F) in
    rm0 <- gets (getRegister rmIndex) ;;
    let rm := if negb (rmIndex =? PC_REGISTER) then rm0
              else if negb i && r then wrap32 (rm0 + 12)
              else wrap32 (rm0 + 8) in
    shiftAmount <-
      (if r then
         let rsIndex := wrap8 (Z.shiftr (Z.land instruction 0x00000F00) 8) in
         assert (negb (rsIndex =? 15)) ;;
         rs <- gets (getRegister rsIndex) ;;
         ret (Z.land rs 0x000000FF)
       else
         ret (Z.land instruction (Z.shiftr 0x00000F80 7))) ;;
    let immOpIsZero := if r then false else shiftAmount =? 0 in
    shifted <-
      (if shiftType =? 0 then
         (* Logical Shift Left *)
         if negb immOpIsZero then
           v <- aluShiftLsl rm (wrap8 shiftAmount) ;;
           c <- lift (shr32 rm (wrap32 (32 - shiftAmount))) ;;
           modify (set_carryBit (Z.land c 1)) ;;
           ret v
         else
           c <- readC ;;
           modify (set_carryBit c) ;;
           ret rm
       else if shiftType =? 1 then
         (* Logical Shift Right *)
         if negb immOpIsZero then
           v <- aluShiftLsr rm (wrap8 shiftAmount) ;;
           c <- lift (shr32 rm (wrap32 (shiftAmount - 1))) ;;
           modify (set_carryBit (Z.land c 1)) ;;
           ret v
         else
           c <- lift (shr32 rm 31) ;;
           modify (set_carryBit (wrap8 c)) ;;
           ret 0
       else if shiftType =? 2 then
         (* Arithmetic Shift Right *)
         if negb immOpIsZero then
           v <- aluShiftAsr rm (wrap8 shiftAmount) ;;
           c <- lift (shr32 rm 31) ;;
           modify (set_carryBit (wrap8 c)) ;;
           ret v
         else
           v <- aluShiftAsr rm 32 ;;
           c <- lift (shr32 rm 31) ;;
           modify (set_carryBit (wrap8 c)) ;;
           ret v
       else
         (* Rotating Shift *)
         if negb immOpIsZero then
           v <- aluShiftRor rm (wrap8 (shiftAmount mod 32)) ;;
           c <- lift (shr32 rm (wrap32 (shiftAmount - 1))) ;;
           modify (set_carryBit (Z.land c 1)) ;;
           ret v
         else
           lo <- lift (shr32 rm 1) ;;
           c <- readC ;;
           hi <- lift (shl32 (wrap32 c) 31) ;;
           modify (set_carryBit (wrap8 (Z.land rm 1))) ;;
           ret (Z.lor lo hi)) ;;
    cb <- gets carryBit ;;
    ret (mkAluShiftResult shifted cb).

(** ** executeAluInstruction (lines 41-67)

    In [instruction & 0x01E00000 >> 21] the shift again binds tighter.  The
    function computes [rnValue] and passes [getRegister(rn)]; it has no
    [return] statement, so the model yields [unit]. *)

Definition executeAluInstruction (instruction : Z) : M unit :=
  shiftResult <- aluShift instruction
                   (truthy (Z.land instruction 0x02000000))
                   (truthy (Z.land instruction 0x00000010)) ;;
  let rd := wrap8 (Z.shiftr (Z.land instruction 0x0000F000) 12) in
  let rn := wrap8 (Z.shiftr (Z.land instruction 0x000F0000) 16) in
  let opcode := wrap8 (Z.land instruction (Z.shiftr 0x01E00000 21)) in
  rnValue <-
    (if negb (rn =? PC_REGISTER) then gets (getRegister rn)
     else if negb (truthy (Z.land instruction 0x02000000))
             && truthy (Z.land instruction 0x00000010)
          then v <- gets (getRegister rn) ;; ret (wrap32 (v + 12))
          else v <- gets (getRegister rn) ;; ret (wrap32 (v + 8))) ;;
  let operand2 := op2 shiftResult in
  rnArg <- gets (getRegister rn) ;;
  modify (executeAluInstructionOperation opcode rd rnArg operand2) ;;
  if negb (rd =? PC_REGISTER) && truthy (Z.land instruction 0x00100000) then
    modify (fun s => set_cpsr (psr_set_C (carryBit s) (cpsr s)) s) ;;
    modify (fun s => set_cpsr (psr_set_Z (overflowBit s) (cpsr s)) s) ;;
    modify (fun s => set_cpsr (psr_set_N (signBit s) (cpsr s)) s) ;;
    modify (fun s => set_cpsr (psr_set_V (overflowBit s) (cpsr s)) s)
  else if (rd =? PC_REGISTER) && truthy (Z.land instruction 0x00100000) then
    modify (fun s => set_cpsr (getModeSpsr s) s)
  else
    ret tt.

(** ** Dispatch (lines 205-256) *)

Definition UNDEF (instruction : Z) (s : ARM7TDMI) : Cycles * ARM7TDMI :=
  (noCycles, s).

(** The sixteen labels share one [break]; there is no [default]. *)
Definition executeInstruction (instruction : Z) (s : ARM7TDMI) : Cycles * ARM7TDMI :=
  let s' :=
    switch (Z.land instruction 0x010E00000)
      (map (fun label => (label, fun t : ARM7TDMI => t))
           [0x0; 0x1; 0x2; 0x3; 0x4; 0x5; 0x6; 0x7;
            0x8; 0x9; 0xA; 0xB; 0xC; 0xD; 0xE; 0xF]) s in
  (noCycles, s').

(** ** Construction and stepping (lines 8-29) *)

(** The member initialisers of the header. *)
Definition zeroPsr : ProgramStatusRegister := mkPsr 0 0 0 0 0 0 0 0 0 0.

Definition initialMembers : ARM7TDMI :=
  mkCpu (fun c => if cell_eqb c (Cell BFiq 8) then 69 else 0)
        zeroPsr zeroPsr zeroPsr zeroPsr zeroPsr zeroPsr 0 0 0 0.

(** ARM7TDMI::ARM7TDMI() *)
Definition construct : ARM7TDMI :=
  let s1 := set_cpsr (psr_set_Mode SUPERVISOR (cpsr initialMembers)) initialMembers in
  let s2 := set_cpsr (psr_set_T 0 (cpsr s1)) s1 in
  setRegister PC_REGISTER BOOT_LOCATION s2.

(** What one call of [step] does outside the processor object: the read it
    issues on the bus and, when it calls executeInstruction, the word and
    the cycle record that call returned. *)
Inductive event : Type :=
| BusRead (address : Z)
| Executed (rawInstruction : Z) (cycles : Cycles).

Section Step.
(** The memory collaborator: [bus->read]. *)
Variable bus : Z -> Z.

Definition step (s : ARM7TDMI) : ARM7TDMI * list event :=
  let address := regs s (Cell BUser PC_REGISTER) in
  let rawInstruction := bus address in
  if truthy (psr_T (cpsr s)) then
    let (cycles, s') := executeInstruction rawInstruction s in
    (s', [BusRead address; Executed rawInstruction cycles])
  else
    (s, [BusRead address]).
End Step.

(** ** Reference notions used by the statements *)

(** The storage cell that backs logical register [index] in mode [mode]:
    the mapping the spec asks for, to be compared with the if-chains of
    getRegister and setRegister. *)
Definition modeCell (mode index : Z) : cell :=
  if mode =? FIQ then fiqRegisters index
  else if mode =? IRQ then irqRegisters index
  else if mode =? SUPERVISOR then svcRegisters index
  else if mode =? ABORT then abtRegisters index
  else if mode =? UNDEFINED then undRegisters index
  else Cell BUser index.

(** Unsigned and signed range of a 32-bit word. *)
Definition u32 (x : Z) : Prop := 0 <= x < 2 ^ 32.
Definition fitsSigned32 (x : Z) : Prop := - 2 ^ 31 <= x < 2 ^ 31.

(** The four flag variables and the four status flags, in the order Z N C V. *)
Definition flagVariables (s : ARM7TDMI) : Z * Z * Z * Z :=
  (zeroBit s, signBit s, carryBit s, overflowBit s).

Definition statusFlags (s : ARM7TDMI) : Z * Z * Z * Z :=
  (psr_Z (cpsr s), psr_N (cpsr s), psr_C (cpsr s), psr_V (cpsr s)).

(** A processor in User mode with the given [registers] contents and carry
    flag, everything else zero. *)
Definition userState (r : Z -> Z) (c : Z) : ARM7TDMI :=
  mkCpu (fun d => match d with Cell BUser i => r i | _ => 0 end)
        (mkPsr USER 0 0 0 0 0 0 c 0 0)
        zeroPsr zeroPsr zeroPsr zeroPsr zeroPsr 0 0 0 0.

(** A processor in Supervisor mode, all registers zero, whose saved
    Supervisor status is [saved]. *)
Definition supervisorState (saved : ProgramStatusRegister) : ARM7TDMI :=
  mkCpu (fun _ => 0) (mkPsr SUPERVISOR 0 0 0 0 0 0 0 0 0)
        zeroPsr saved zeroPsr zeroPsr zeroPsr 0 0 0 0.

(** A User-mode status word with V and Z set. *)
Definition savedUserStatus : ProgramStatusRegister :=
  mkPsr USER 0 0 0 0 0 1 0 1 0.

(** The run completed, and its value and end state satisfy [P]. *)
Definition endsWith {A : Type} (r : result (A * ARM7TDMI))
    (P : A -> ARM7TDMI -> Prop) : Prop :=
  match r with
  | Ok (a, s') => P a s'
  | Fault _ => False
  end.

(** A status word told apart from the others by its reserved field. *)
Definition markedStatus (k : Z) : ProgramStatusRegister :=
  mkPsr USER 0 0 0 k 0 0 0 0 0.

(** A processor in mode [mode], all registers zero, whose five saved status
    words are pairwise different: FIQ 1, Supervisor 2, Abort 3, IRQ 4,
    Undefined 5. *)
Definition bankedState (mode : Z) : ARM7TDMI :=
  mkCpu (fun _ => 0) (mkPsr mode 0 0 0 0 0 0 0 0 0)
        (markedStatus 1) (markedStatus 2) (markedStatus 3) (markedStatus 4)
        (markedStatus 5) 0 0 0 0.

(** Register contents with one register set and the others zero. *)
Definition only (index value : Z) : Z -> Z :=
  fun i => if i =? index then value else 0.

(** The status words are the same in both states. *)
Definition sameStatus (s s' : ARM7TDMI) : Prop :=
  cpsr s' = cpsr s /\ SPSR_fiq s' = SPSR_fiq s /\ SPSR_svc s' = SPSR_svc s
  /\ SPSR_abt s' = SPSR_abt s /\ SPSR_irq s' = SPSR_irq s
  /\ SPSR_und s' = SPSR_und s.

(** Every successful run of [m] relates its end state to its start state
    by [P]. *)
Definition preserves (P : ARM7TDMI -> ARM7TDMI -> Prop) {A : Type} (m : M A) : Prop :=
  forall s a s', m s = Ok (a, s') -> P s s'.

(** The end state differs from the start state at most in [carryBit]. *)
Definition onlyCarryBit (s s' : ARM7TDMI) : Prop :=
  s' = set_carryBit (carryBit s') s.

(** The end state has the status words of the start state, and its register
    storage differs at most at cell [target]. *)
Definition onlyCell (target : cell) (s s' : ARM7TDMI) : Prop :=
  sameStatus s s'
  /\ forall c, cell_eqb c target = false -> regs s' c = regs s c.

(** What the flag-update branch of executeAluInstruction assigns. *)
Definition flagFieldsFrom (s2 : ARM7TDMI) (p : ProgramStatusRegister) : Prop :=
  psr_C p = bit1 (carryBit s2) /\ psr_Z p = bit1 (overflowBit s2)
  /\ psr_N p = bit1 (signBit s2) /\ psr_V p = bit1 (overflowBit s2).

(** The fields of a status word that are not condition flags. *)
Definition controlFields (p : ProgramStatusRegister) : Z * Z * Z * Z * Z * Z :=
  (psr_Mode p, psr_T p, psr_F p, psr_I p, psr_Reserved p, psr_Q p).

(** * Properties *)

(** ** Bit-level facts *)

Lemma word_top_bit (x : Z) : u32 x -> x / 2 ^ 31 = 0 \/ x / 2 ^ 31 = 1.
Proof.
  unfold u32; intros H.
  assert (0 <= x / 2 ^ 31 < 2) by (split; [apply Z.div_pos | apply Z.div_lt_upper_bound]; lia).
  lia.
Qed.

Lemma msb_mask (x : Z) :
  u32 x -> truthy (Z.land x 0x80000000) = (2 ^ 31 <=? x).
Proof.
  intros H. unfold truthy.
  assert (Hbit : Z.testbit x 31 = (2 ^ 31 <=? x)).
  { rewrite Z.testbit_eqb by lia.
    destruct (word_top_bit x H) as [E | E]; rewrite E; unfold u32 in H;
      destruct (Z.leb_spec (2 ^ 31) x); try reflexivity; exfalso;
      revert E; Z.div_mod_to_equations; lia. }
  rewrite <- Hbit.
  destruct (Z.testbit x 31) eqn:Hx.
  - destruct (Z.eqb_spec (Z.land x 0x80000000) 0) as [E | E]; [ | reflexivity ].
    exfalso. assert (Hb : Z.testbit (Z.land x 0x80000000) 31 = true).
    { rewrite Z.land_spec, Hx. reflexivity. }
    rewrite E in Hb. discriminate.
  - assert (E : Z.land x 0x80000000 = 0).
    { apply Z.bits_inj'; intros n Hn. rewrite Z.land_spec, Z.bits_0.
      change 0x80000000 with (2 ^ 31).
      destruct (Z.eq_dec n 31) as [-> | Hne].
      - rewrite Hx. reflexivity.
      - rewrite (Z.pow2_bits_false 31 n) by lia. apply andb_false_r. }
    rewrite E. reflexivity.
Qed.

Lemma sign_is_bit31 (x : Z) : u32 x -> aluSetsSignBit x = Z.testbit x 31.
Proof.
  intros H. unfold aluSetsSignBit, truthy.
  rewrite Z.testbit_eqb, Z.shiftr_div_pow2 by lia.
  destruct (word_top_bit x H) as [E | E]; rewrite E; reflexivity.
Qed.

Lemma wrap32_range (x : Z) : u32 (wrap32 x).
Proof. unfold u32, wrap32. apply Z.mod_pos_bound. lia. Qed.

Lemma wrap8_small (x : Z) : 0 <= x < 256 -> wrap8 x = x.
Proof. intros H. unfold wrap8. apply Z.mod_small. simpl. lia. Qed.

Lemma land_under_mask (a m n : Z) :
  0 <= n -> Z.land m (Z.ones n) = m -> 0 <= Z.land a m < 2 ^ n.
Proof.
  intros Hn Hm.
  rewrite <- Hm, Z.land_assoc, Z.land_ones by exact Hn.
  apply Z.mod_pos_bound. apply Z.pow_pos_nonneg; lia.
Qed.

(** ** Flag predicates *)

Ltac flag_cases :=
  repeat match goal with
         | |- context [(?a <=? ?b)] => destruct (Z.leb_spec a b)
         | |- context [(?a <? ?b)] => destruct (Z.ltb_spec a b)
         | |- context [(?a =? ?b)] => destruct (Z.eqb_spec a b)
         end;
  cbn [negb andb orb]; split; intros; try discriminate; try reflexivity; try lia.

Lemma add_carry_spec (a b : Z) :
  u32 a -> u32 b -> (aluAddSetsCarryBit a b = true <-> 2 ^ 32 <= a + b).
Proof.
  unfold u32, aluAddSetsCarryBit, wrap32; intros Ha Hb.
  rewrite Z.mod_small by lia. flag_cases.
Qed.

Lemma sub_carry_spec (a b : Z) :
  aluSubtractSetsCarryBit a b = true <-> b <= a.
Proof. unfold aluSubtractSetsCarryBit. flag_cases. Qed.

Lemma wrap32_sum (a b : Z) :
  u32 a -> u32 b ->
  wrap32 (a + b) = if a + b <? 2 ^ 32 then a + b else a + b - 2 ^ 32.
Proof.
  unfold u32, wrap32; intros Ha Hb.
  destruct (Z.ltb_spec (a + b) (2 ^ 32)); Z.div_mod_to_equations; lia.
Qed.

Lemma wrap32_difference (a b : Z) :
  u32 a -> u32 b ->
  wrap32 (a - b) = if 0 <=? a - b then a - b else a - b + 2 ^ 32.
Proof.
  unfold u32, wrap32; intros Ha Hb.
  destruct (Z.leb_spec 0 (a - b)); Z.div_mod_to_equations; lia.
Qed.

Lemma add_overflow_spec (a b : Z) :
  u32 a -> u32 b ->
  (aluAddSetsOverflowBit a b (wrap32 (a + b)) = true
   <-> ~ fitsSigned32 (signed32 a + signed32 b)).
Proof.
  intros Ha Hb. unfold aluAddSetsOverflowBit.
  rewrite !msb_mask by (assumption || apply wrap32_range).
  rewrite wrap32_sum by assumption.
  unfold u32, fitsSigned32, signed32 in *.
  destruct (Z.ltb_spec (a + b) (2 ^ 32)); flag_cases.
Qed.

Lemma sub_overflow_spec (a b : Z) :
  u32 a -> u32 b ->
  (aluSubtractSetsOverflowBit a b (wrap32 (a - b)) = true
   <-> ~ fitsSigned32 (signed32 a - signed32 b)).
Proof.
  intros Ha Hb. unfold aluSubtractSetsOverflowBit.
  rewrite !msb_mask by (assumption || apply wrap32_range).
  rewrite wrap32_difference by assumption.
  unfold u32, fitsSigned32, signed32 in *.
  destruct (Z.leb_spec 0 (a - b)); flag_cases.
Qed.

(** C5.  For all 32-bit a and b: the add carry predicate holds exactly when
    a + b leaves the unsigned 32-bit range, the add overflow predicate
    exactly when the signed sum leaves the signed 32-bit range, the subtract
    carry predicate exactly when a >= b (no borrow), the subtract overflow
    predicate exactly when the signed difference leaves the signed range;
    for every 32-bit result r the zero predicate holds exactly when r = 0
    and the sign predicate is bit 31 of r. *)
Theorem alu_flag_predicates (a b r : Z) :
  u32 a -> u32 b -> u32 r ->
  (aluAddSetsCarryBit a b = true <-> 2 ^ 32 <= a + b)
  /\ (aluAddSetsOverflowBit a b (wrap32 (a + b)) = true
      <-> ~ fitsSigned32 (signed32 a + signed32 b))
  /\ (aluSubtractSetsCarryBit a b = true <-> b <= a)
  /\ (aluSubtractSetsOverflowBit a b (wrap32 (a - b)) = true
      <-> ~ fitsSigned32 (signed32 a - signed32 b))
  /\ (aluSetsZeroBit r = true <-> r = 0)
  /\ aluSetsSignBit r = Z.testbit r 31.
Proof.
  intros Ha Hb Hr.
  split; [ apply add_carry_spec; assumption | ].
  split; [ apply add_overflow_spec; assumption | ].
  split; [ apply sub_carry_spec | ].
  split; [ apply sub_overflow_spec; assumption | ].
  split; [ unfold aluSetsZeroBit; apply Z.eqb_eq | ].
  apply sign_is_bit31; assumption.
Qed.

Lemma alu_flag_predicates_witness :
  u32 0x7FFFFFFF /\ u32 1 /\ u32 0x80000000
  /\ (aluAddSetsOverflowBit 0x7FFFFFFF 1 (wrap32 (0x7FFFFFFF + 1)) = true
      <-> ~ fitsSigned32 (signed32 0x7FFFFFFF + signed32 1)).
Proof.
  assert (Ha : u32 0x7FFFFFFF) by (unfold u32; lia).
  assert (Hb : u32 1) by (unfold u32; lia).
  assert (Hr : u32 0x80000000) by (unfold u32; lia).
  repeat split; try (unfold u32 in *; lia);
    apply (alu_flag_predicates 0x7FFFFFFF 1 0x80000000 Ha Hb Hr).
Defined.

(** ** Register banking *)

Lemma bank_eqb_refl (b : bank) : bank_eqb b b = true.
Proof. destruct b; reflexivity. Qed.

Lemma cell_eqb_refl (c : cell) : cell_eqb c c = true.
Proof. destruct c as [b i]. simpl. rewrite bank_eqb_refl, Z.eqb_refl. reflexivity. Qed.

Lemma getRegister_modeCell (index : Z) (s : ARM7TDMI) :
  getRegister index s = regs s (modeCell (psr_Mode (cpsr s)) index).
Proof.
  unfold getRegister, modeCell.
  destruct (Z.eqb_spec (psr_Mode (cpsr s)) USER) as [E | E];
    [ rewrite E; reflexivity | ].
  repeat match goal with
         | |- context [if ?b then _ else _] => destruct b
         end; reflexivity.
Qed.

Lemma setRegister_modeCell (index value : Z) (s : ARM7TDMI) :
  setRegister index value s
  = set_regs (store (modeCell (psr_Mode (cpsr s)) index) value (regs s)) s.
Proof.
  unfold setRegister, modeCell.
  destruct (Z.eqb_spec (psr_Mode (cpsr s)) USER) as [E | E];
    [ rewrite E; reflexivity | ].
  repeat match goal with
         | |- context [if ?b then _ else _] => destruct b
         end; reflexivity.
Qed.

Lemma getRegister_setRegister (index value : Z) (s : ARM7TDMI) :
  getRegister index (setRegister index value s) = value.
Proof.
  rewrite getRegister_modeCell, setRegister_modeCell. simpl.
  unfold store. rewrite cell_eqb_refl. reflexivity.
Qed.

Lemma setRegister_sameStatus (index value : Z) (s : ARM7TDMI) :
  sameStatus s (setRegister index value s).
Proof. rewrite setRegister_modeCell. repeat split. Qed.

(** C6.  A write through a logical index changes the one cell that backs
    the index in the active mode and no other; a read returns that cell.
    Register 13 written in Supervisor mode, then written in IRQ mode, reads
    back in Supervisor mode as the Supervisor value, whatever the two values
    are; an IRQ-mode write of register 13 never changes what Supervisor mode
    reads there. *)
Theorem register_banking_r13 :
  (forall s index value c,
      regs (setRegister index value s) c
      = if cell_eqb c (modeCell (psr_Mode (cpsr s)) index) then value else regs s c)
  /\ (forall s index, getRegister index s = regs s (modeCell (psr_Mode (cpsr s)) index))
  /\ (forall s vSvc vIrq,
        getRegister 13
          (switchToMode SUPERVISOR
             (setRegister 13 vIrq
                (switchToMode IRQ
                   (setRegister 13 vSvc (switchToMode SUPERVISOR s)))))
        = vSvc)
  /\ (forall s vIrq,
        getRegister 13 (switchToMode SUPERVISOR (setRegister 13 vIrq (switchToMode IRQ s)))
        = getRegister 13 (switchToMode SUPERVISOR s)).
Proof.
  split; [ | split; [ | split ] ].
  - intros s index value c. rewrite setRegister_modeCell. reflexivity.
  - intros s index. apply getRegister_modeCell.
  - intros s vSvc vIrq. reflexivity.
  - intros s vIrq. reflexivity.
Qed.

(** ** The data-processing switch *)

Lemma setZeroSign_sameStatus (r : Z) (s : ARM7TDMI) : sameStatus s (setZeroSign r s).
Proof. repeat split. Qed.

Lemma setCarryOverflow_sameStatus (c v : bool) (s : ARM7TDMI) :
  sameStatus s (setCarryOverflow c v s).
Proof. repeat split. Qed.

Lemma sameStatus_refl (s : ARM7TDMI) : sameStatus s s.
Proof. repeat split. Qed.

Lemma sameStatus_trans (s t u : ARM7TDMI) :
  sameStatus s t -> sameStatus t u -> sameStatus s u.
Proof.
  unfold sameStatus. intros (A1 & A2 & A3 & A4 & A5 & A6) (B1 & B2 & B3 & B4 & B5 & B6).
  repeat split; congruence.
Qed.

Lemma caseMVN_result (rd operand2 : Z) (s : ARM7TDMI) :
  0 <= rd <= 15 ->
  let s' := caseMVN rd operand2 s in
  getRegister rd s' = not32 operand2
  /\ zeroBit s' = Z.b2z (aluSetsZeroBit (not32 operand2))
  /\ signBit s' = Z.b2z (aluSetsSignBit (not32 operand2)).
Proof.
  intros Hrd s'. subst s'. unfold caseMVN.
  rewrite wrap8_small by lia.
  split; [ | split; reflexivity ].
  exact (getRegister_setRegister rd (not32 operand2) s).
Qed.

Lemma opcode_enumeration (opcode : Z) :
  0 <= opcode <= 15 ->
  In opcode [AND; EOR; SUB; RSB; ADD; ADC; SBC; RSC; TST; TEQ; CMP; CMN; ORR; MOV; BIC; MVN].
Proof.
  intros H. unfold AND, EOR, SUB, RSB, ADD, ADC, SBC, RSC, TST, TEQ, CMP, CMN,
    ORR, MOV, BIC, MVN. simpl. lia.
Qed.

Lemma alu_switch_suffix (opcode rd rnVal operand2 : Z) (s : ARM7TDMI) :
  0 <= opcode <= 15 ->
  executeAluInstructionOperation opcode rd rnVal operand2 s
  = fallthrough (skipn (Z.to_nat opcode) (aluCases rd rnVal operand2)) s.
Proof.
  intros H. apply opcode_enumeration in H. simpl in H.
  repeat (destruct H as [<- | H]; [ reflexivity | ]).
  contradiction.
Qed.

Lemma alu_suffix_ends_at_MVN (n : nat) (rd rnVal operand2 : Z) (s : ARM7TDMI) :
  (n <= 15)%nat ->
  exists s0, fallthrough (skipn n (aluCases rd rnVal operand2)) s
             = caseMVN rd operand2 s0.
Proof.
  intros H.
  do 16 (destruct n as [ | n]; [ eexists; reflexivity | ]).
  lia.
Qed.

(** C9.  For every opcode 0..15 and all operands the switch runs the case
    bodies from the matching label to the last one, so the destination
    register ends as NOT operand2 and the zero and sign variables are those
    of NOT operand2. *)
Theorem alu_switch_ends_at_MVN (opcode rd rnVal operand2 : Z) (s : ARM7TDMI) :
  0 <= opcode <= 15 -> 0 <= rd <= 15 ->
  let s' := executeAluInstructionOperation opcode rd rnVal operand2 s in
  s' = fallthrough (skipn (Z.to_nat opcode) (aluCases rd rnVal operand2)) s
  /\ getRegister rd s' = not32 operand2
  /\ zeroBit s' = Z.b2z (aluSetsZeroBit (not32 operand2))
  /\ signBit s' = Z.b2z (aluSetsSignBit (not32 operand2)).
Proof.
  intros Hop Hrd s'. subst s'.
  rewrite alu_switch_suffix by exact Hop.
  split; [ reflexivity | ].
  destruct (alu_suffix_ends_at_MVN (Z.to_nat opcode) rd rnVal operand2 s) as [s0 E];
    [ lia | ].
  rewrite E. apply caseMVN_result. exact Hrd.
Qed.

Lemma alu_switch_ends_at_MVN_witness :
  0 <= ADD <= 15 /\ 0 <= 3 <= 15
  /\ getRegister 3 (executeAluInstructionOperation ADD 3 0x7FFFFFFF 1 construct)
     = not32 1.
Proof.
  assert (Hop : 0 <= ADD <= 15) by (unfold ADD; lia).
  assert (Hrd : 0 <= 3 <= 15) by lia.
  split; [ exact Hop | split; [ exact Hrd | ] ].
  apply (alu_switch_ends_at_MVN ADD 3 0x7FFFFFFF 1 construct Hop Hrd).
Defined.

(** ** Dispatch and stepping *)

Lemma fallthrough_breaks (labels : list Z) (s : ARM7TDMI) :
  fallthrough (map (fun label => (label, fun t : ARM7TDMI => t)) labels) s = s.
Proof. induction labels as [ | l ls IH]; simpl; [ reflexivity | exact IH ]. Qed.

Lemma switch_breaks (x : Z) (labels : list Z) (s : ARM7TDMI) :
  switch x (map (fun label => (label, fun t : ARM7TDMI => t)) labels) s = s.
Proof.
  induction labels as [ | l ls IH]; simpl; [ reflexivity | ].
  destruct (x =? l); [ apply fallthrough_breaks | exact IH ].
Qed.

Lemma dispatch_mask_low_bits (instruction : Z) :
  Z.land instruction 0x010E00000 mod 2 ^ 4 = 0.
Proof.
  rewrite <- Z.land_ones by lia.
  rewrite <- Z.land_assoc.
  change (Z.land 0x010E00000 (Z.ones 4)) with 0.
  apply Z.land_0_r.
Qed.

Lemma executeInstruction_returns (instruction : Z) (s : ARM7TDMI) :
  executeInstruction instruction s = (noCycles, s).
Proof. unfold executeInstruction. rewrite switch_breaks. reflexivity. Qed.

(** C10.  For every instruction word executeInstruction returns the all-zero
    cycle record, the same as UNDEF, and the processor object unchanged;
    the masked value the switch tests is never one of the labels 0x1..0xF. *)
Theorem executeInstruction_inert (instruction : Z) (s : ARM7TDMI) :
  executeInstruction instruction s = (mkCycles 0 0 0 0, s)
  /\ executeInstruction instruction s = UNDEF instruction s
  /\ Forall (fun label => Z.land instruction 0x010E00000 <> label)
            [0x1; 0x2; 0x3; 0x4; 0x5; 0x6; 0x7; 0x8; 0x9; 0xA; 0xB; 0xC; 0xD; 0xE; 0xF].
Proof.
  pose proof (executeInstruction_returns instruction s) as E.
  split; [ exact E | split; [ exact E | ] ].
  pose proof (dispatch_mask_low_bits instruction) as Hlow.
  repeat constructor; intros Heq; rewrite Heq in Hlow; discriminate Hlow.
Qed.

Lemma step_executes_when_T_set (bus : Z -> Z) (s : ARM7TDMI) :
  psr_T (cpsr s) <> 0 ->
  step bus s
  = (s, [BusRead (regs s (Cell BUser PC_REGISTER));
         Executed (bus (regs s (Cell BUser PC_REGISTER))) noCycles]).
Proof.
  intros H. unfold step, truthy.
  rewrite executeInstruction_returns.
  destruct (Z.eqb_spec (psr_T (cpsr s)) 0) as [E | _]; [ contradiction | ].
  reflexivity.
Qed.

(** C3.  With the T bit 0, one call of step reads the bus at the stored
    program counter and leaves the whole processor object as it was: no
    register, banked register or status field changes, and
    executeInstruction is not called.  The constructed processor has T = 0. *)
Theorem step_with_T_clear (bus : Z -> Z) (s : ARM7TDMI) :
  psr_T (cpsr s) = 0 ->
  step bus s = (s, [BusRead (regs s (Cell BUser PC_REGISTER))])
  /\ (forall raw cycles, ~ In (Executed raw cycles) (snd (step bus s)))
  /\ psr_T (cpsr construct) = 0.
Proof.
  intros H.
  assert (E : step bus s = (s, [BusRead (regs s (Cell BUser PC_REGISTER))])).
  { unfold step, truthy. rewrite H. reflexivity. }
  split; [ exact E | split; [ | reflexivity ] ].
  intros raw cycles Hin. rewrite E in Hin. simpl in Hin.
  destruct Hin as [Hin | []]. discriminate Hin.
Qed.

Lemma step_with_T_clear_witness :
  psr_T (cpsr construct) = 0
  /\ step (fun _ => 0xE3510005) construct = (construct, [BusRead BOOT_LOCATION]).
Proof.
  assert (H : psr_T (cpsr construct) = 0) by reflexivity.
  split; [ exact H | ].
  apply (step_with_T_clear (fun _ => 0xE3510005) construct H).
Defined.

(** ** What the monadic code leaves alone *)

Lemma preserves_ret {A : Type} (a : A) : preserves sameStatus (ret a).
Proof. intros s x s' H. injection H as _ <-. apply sameStatus_refl. Qed.

Lemma preserves_gets {A : Type} (f : ARM7TDMI -> A) : preserves sameStatus (gets f).
Proof. intros s x s' H. injection H as _ <-. apply sameStatus_refl. Qed.

Lemma preserves_lift {A : Type} (r : result A) : preserves sameStatus (lift r).
Proof.
  intros s x s' H. unfold lift in H. destruct r; [ | discriminate ].
  injection H as _ <-. apply sameStatus_refl.
Qed.

Lemma preserves_assert (b : bool) : preserves sameStatus (assert b).
Proof.
  intros s x s' H. unfold assert in H. destruct b; [ | discriminate ].
  injection H as _ <-. apply sameStatus_refl.
Qed.

Lemma preserves_modify (f : ARM7TDMI -> ARM7TDMI) :
  (forall s, sameStatus s (f s)) -> preserves sameStatus (modify f).
Proof. intros Hf s x s' H. injection H as _ <-. apply Hf. Qed.

Lemma preserves_bind {A B : Type} (m : M A) (k : A -> M B) :
  preserves sameStatus m -> (forall a, preserves sameStatus (k a)) ->
  preserves sameStatus (bind m k).
Proof.
  intros Hm Hk s b s' H. unfold bind in H.
  destruct (m s) as [[a s1] | f] eqn:E; [ | discriminate ].
  eapply sameStatus_trans; [ eapply Hm; exact E | eapply Hk; exact H ].
Qed.

Lemma set_carryBit_sameStatus (v : Z) (s : ARM7TDMI) : sameStatus s (set_carryBit v s).
Proof. repeat split. Qed.

Ltac frame_step :=
  first [ apply preserves_bind; [ | intros ? ]
        | apply preserves_ret
        | apply preserves_gets
        | apply preserves_lift
        | apply preserves_assert
        | apply preserves_modify; intros ?; apply set_carryBit_sameStatus
        | match goal with
          | |- preserves _ (if ?b then _ else _) => destruct b
          end ].

Lemma aluShift_sameStatus (instruction : Z) (i r : bool) :
  preserves sameStatus (aluShift instruction i r).
Proof.
  unfold aluShift, aluShiftRor, aluShiftLsl, aluShiftLsr, aluShiftAsr, readC.
  cbv zeta. repeat frame_step.
Qed.

Lemma switch_sameStatus (cases : list (Z * (ARM7TDMI -> ARM7TDMI))) :
  Forall (fun c => forall s, sameStatus s (snd c s)) cases ->
  forall x s, sameStatus s (switch x cases s).
Proof.
  assert (Hfall : forall cs, Forall (fun c => forall s, sameStatus s (snd c s)) cs ->
                             forall s, sameStatus s (fallthrough cs s)).
  { induction cs as [ | [l body] cs IH]; intros Hcs s; simpl.
    - apply sameStatus_refl.
    - inversion Hcs as [ | c cs' Hc Hrest]; subst.
      eapply sameStatus_trans; [ apply (Hc s) | apply IH; exact Hrest ]. }
  induction cases as [ | [l body] cs IH]; intros Hcs x s.
  - apply sameStatus_refl.
  - cbn [switch]. destruct (x =? l).
    + apply Hfall. exact Hcs.
    + apply IH. inversion Hcs; assumption.
Qed.

Ltac status_step :=
  first [ apply sameStatus_refl
        | apply setRegister_sameStatus
        | eapply sameStatus_trans; [ | apply setCarryOverflow_sameStatus ]
        | eapply sameStatus_trans; [ | apply setZeroSign_sameStatus ]
        | eapply sameStatus_trans; [ | apply setRegister_sameStatus ] ].

Lemma executeAluInstructionOperation_sameStatus
    (opcode rd rnVal operand2 : Z) (s : ARM7TDMI) :
  sameStatus s (executeAluInstructionOperation opcode rd rnVal operand2 s).
Proof.
  unfold executeAluInstructionOperation. apply switch_sameStatus.
  unfold aluCases.
  repeat (apply Forall_cons;
          [ cbn [snd]; intros t;
            unfold caseAND, caseEOR, caseSUB, caseRSB, caseADD, caseADC, caseSBC,
              caseRSC, caseTST, caseTEQ, caseCMP, caseCMN, caseORR, caseMOV,
              caseBIC, caseMVN; cbv zeta; repeat status_step | ]).
  apply Forall_nil.
Qed.

Lemma getModeSpsr_sameStatus (s t : ARM7TDMI) :
  sameStatus s t -> getModeSpsr t = getModeSpsr s.
Proof.
  intros (E1 & E2 & E3 & E4 & E5 & E6). unfold getModeSpsr.
  rewrite E1, E2, E3, E4, E5, E6. reflexivity.
Qed.

Lemma getModeSpsr_unbanked (s : ARM7TDMI) :
  psr_Mode (cpsr s) = USER \/ psr_Mode (cpsr s) = SYSTEM -> getModeSpsr s = cpsr s.
Proof. intros [E | E]; unfold getModeSpsr; rewrite E; reflexivity. Qed.

(** ** Successful runs of the immediate-operand form *)

Lemma aluShiftRor_runs (value shift : Z) (s : ARM7TDMI) :
  0 <= shift < 32 ->
  exists v, aluShiftRor value shift s = Ok (v, s).
Proof.
  intros H. unfold aluShiftRor, bind, assert, lift, ret, shr32, shl32.
  destruct (Z.ltb_spec shift 32); [ | lia ].
  destruct (Z.leb_spec 0 shift); [ | lia ]. cbn [andb].
  pose proof (land_under_mask (wrap32 (- shift)) 31 5 ltac:(lia) eq_refl) as Hc.
  destruct (Z.leb_spec 0 (Z.land (wrap32 (- shift)) 31)); [ | lia ].
  destruct (Z.ltb_spec (Z.land (wrap32 (- shift)) 31) 32); [ | simpl in Hc; lia ].
  cbn [andb]. eexists. reflexivity.
Qed.

Lemma rotate_field_range (instruction : Z) :
  0 <= wrap8 (Z.shiftr (Z.land instruction 0x00000F00) 7) < 32.
Proof.
  pose proof (land_under_mask instruction 0x00000F00 12 ltac:(lia) eq_refl) as H.
  rewrite Z.shiftr_div_pow2 by lia.
  assert (0 <= Z.land instruction 0x00000F00 / 2 ^ 7 < 32).
  { split; [ apply Z.div_pos | apply Z.div_lt_upper_bound ]; simpl in *; lia. }
  rewrite wrap8_small; lia.
Qed.

Lemma aluShift_immediate_runs (instruction : Z) (r : bool) (s : ARM7TDMI) :
  exists res s', aluShift instruction true r s = Ok (res, s').
Proof.
  unfold aluShift. cbv zeta.
  pose proof (rotate_field_range instruction) as Hr.
  set (amount := wrap8 (Z.shiftr (Z.land instruction 0x00000F00) 7)) in *.
  assert (Hm : wrap8 (amount mod 32) = amount).
  { rewrite Z.mod_small by lia. apply wrap8_small. lia. }
  rewrite Hm.
  destruct (aluShiftRor_runs (Z.land instruction 0x000000FF) amount s Hr) as [v Hv].
  unfold bind at 1. rewrite Hv.
  unfold bind, gets, modify, lift, ret, shr32.
  destruct (Z.ltb_spec 0 amount).
  - destruct (Z.leb_spec 0 (amount - 1)); [ | lia ].
    destruct (Z.ltb_spec (amount - 1) 32); [ | lia ].
    cbn [andb]. eexists. eexists. reflexivity.
  - eexists. eexists. reflexivity.
Qed.

Lemma bind_Ok {A B : Type} (m : M A) (k : A -> M B) (s s1 : ARM7TDMI) (a : A) :
  m s = Ok (a, s1) -> bind m k s = k a s1.
Proof. intros H. unfold bind. rewrite H. reflexivity. Qed.

Lemma bind_Fault {A B : Type} (m : M A) (k : A -> M B) (s : ARM7TDMI) (f : fault) :
  m s = Fault f -> bind m k s = Fault f.
Proof. intros H. unfold bind. rewrite H. reflexivity. Qed.

(** ** Flag-setting writes to the program counter *)

(** With Rd = 15 and the S bit set, executeAluInstruction faults exactly
    when the shifter does; otherwise it ends by copying the saved status of
    a state whose status words are those of the start state. *)
Lemma executeAluInstruction_to_pc_shape (instruction : Z) (s : ARM7TDMI) :
  wrap8 (Z.shiftr (Z.land instruction 0x0000F000) 12) = PC_REGISTER ->
  truthy (Z.land instruction 0x00100000) = true ->
  match aluShift instruction (truthy (Z.land instruction 0x02000000))
                 (truthy (Z.land instruction 0x00000010)) s with
  | Ok (_, s1) =>
      exists s2, sameStatus s s2
                 /\ executeAluInstruction instruction s
                    = Ok (tt, set_cpsr (getModeSpsr s2) s2)
  | Fault f => executeAluInstruction instruction s = Fault f
  end.
Proof.
  intros Hrd HS. unfold executeAluInstruction. cbv zeta.
  rewrite Hrd, HS.
  destruct (aluShift instruction _ _ s) as [[res s1] | f] eqn:Hshift;
    [ | apply bind_Fault; exact Hshift ].
  rewrite (bind_Ok _ _ _ _ _ Hshift).
  apply aluShift_sameStatus in Hshift.
  change (negb (PC_REGISTER =? PC_REGISTER) && true) with false.
  change ((PC_REGISTER =? PC_REGISTER) && true) with true.
  cbv iota.
  exists (executeAluInstructionOperation
            (wrap8 (Z.land instruction (Z.shiftr 0x01E00000 21))) PC_REGISTER
            (getRegister (wrap8 (Z.shiftr (Z.land instruction 0x000F0000) 16)) s1)
            (op2 res) s1).
  split.
  - eapply sameStatus_trans;
      [ exact Hshift | apply executeAluInstructionOperation_sameStatus ].
  - repeat match goal with
           | |- context [if ?b then _ else _] => destruct b
           end; reflexivity.
Qed.

(** C8.  A data-processing instruction with Rd = 15 and the S bit set ends
    with the current status equal to the saved status of the mode it started
    in, not with the flag variables: SPSR_fiq in FIQ mode, SPSR_irq in IRQ
    mode, SPSR_svc in Supervisor mode, SPSR_abt in Abort mode and SPSR_und
    in Undefined mode.  In the immediate-operand form it always completes.
    In User and System mode the saved status read is the current status,
    so there the status register ends as it started. *)
Theorem flag_setting_write_to_pc (instruction : Z) (s : ARM7TDMI) :
  wrap8 (Z.shiftr (Z.land instruction 0x0000F000) 12) = PC_REGISTER ->
  truthy (Z.land instruction 0x00100000) = true ->
  (forall s', executeAluInstruction instruction s = Ok (tt, s') ->
              cpsr s' = getModeSpsr s
              /\ (psr_Mode (cpsr s) = FIQ -> cpsr s' = SPSR_fiq s)
              /\ (psr_Mode (cpsr s) = IRQ -> cpsr s' = SPSR_irq s)
              /\ (psr_Mode (cpsr s) = SUPERVISOR -> cpsr s' = SPSR_svc s)
              /\ (psr_Mode (cpsr s) = ABORT -> cpsr s' = SPSR_abt s)
              /\ (psr_Mode (cpsr s) = UNDEFINED -> cpsr s' = SPSR_und s))
  /\ (truthy (Z.land instruction 0x02000000) = true ->
      exists s', executeAluInstruction instruction s = Ok (tt, s'))
  /\ (psr_Mode (cpsr s) = USER \/ psr_Mode (cpsr s) = SYSTEM ->
      getModeSpsr s = cpsr s
      /\ forall s', executeAluInstruction instruction s = Ok (tt, s') ->
                    cpsr s' = cpsr s).
Proof.
  intros Hrd HS.
  pose proof (executeAluInstruction_to_pc_shape instruction s Hrd HS) as Hshape.
  assert (Hrun : forall s', executeAluInstruction instruction s = Ok (tt, s') ->
                            cpsr s' = getModeSpsr s).
  { intros s' Hexec.
    destruct (aluShift instruction _ _ s) as [[res s1] | f].
    - destruct Hshape as (s2 & Hsame & E). rewrite E in Hexec.
      injection Hexec as <-. cbn [cpsr set_cpsr].
      apply getModeSpsr_sameStatus. exact Hsame.
    - rewrite Hshape in Hexec. discriminate Hexec. }
  split; [ | split ].
  - intros s' Hexec. specialize (Hrun s' Hexec).
    split; [ exact Hrun | ].
    repeat split; intros Hmode; rewrite Hrun; unfold getModeSpsr;
      rewrite Hmode; reflexivity.
  - intros Himm. rewrite Himm in Hshape.
    destruct (aluShift_immediate_runs instruction
                (truthy (Z.land instruction 0x00000010)) s) as (res & s1 & E).
    rewrite E in Hshape. destruct Hshape as (s2 & _ & Hexec).
    eexists. exact Hexec.
  - intros Hmode. pose proof (getModeSpsr_unbanked s Hmode) as Hsaved.
    split; [ exact Hsaved | ].
    intros s' Hexec. rewrite <- Hsaved. apply Hrun. exact Hexec.
Qed.

Lemma flag_setting_write_to_pc_witness :
  wrap8 (Z.shiftr (Z.land 0xE3B0F000 0x0000F000) 12) = PC_REGISTER
  /\ truthy (Z.land 0xE3B0F000 0x00100000) = true
  /\ (forall s',
        executeAluInstruction 0xE3B0F000 (supervisorState savedUserStatus) = Ok (tt, s') ->
        cpsr s' = savedUserStatus)
  /\ (forall s', executeAluInstruction 0xE3B0F000 (bankedState FIQ) = Ok (tt, s') ->
                 cpsr s' = markedStatus 1)
  /\ (forall s', executeAluInstruction 0xE3B0F000 (bankedState IRQ) = Ok (tt, s') ->
                 cpsr s' = markedStatus 4)
  /\ (forall s', executeAluInstruction 0xE3B0F000 (bankedState SUPERVISOR) = Ok (tt, s') ->
                 cpsr s' = markedStatus 2)
  /\ (forall s', executeAluInstruction 0xE3B0F000 (bankedState ABORT) = Ok (tt, s') ->
                 cpsr s' = markedStatus 3)
  /\ (forall s', executeAluInstruction 0xE3B0F000 (bankedState UNDEFINED) = Ok (tt, s') ->
                 cpsr s' = markedStatus 5).
Proof.
  assert (Hrd : wrap8 (Z.shiftr (Z.land 0xE3B0F000 0x0000F000) 12) = PC_REGISTER)
    by reflexivity.
  assert (HS : truthy (Z.land 0xE3B0F000 0x00100000) = true) by reflexivity.
  split; [ exact Hrd | split; [ exact HS | ] ].
  split; [ | split; [ | split; [ | split; [ | split ] ] ] ]; intros s' H.
  - destruct (proj1 (flag_setting_write_to_pc 0xE3B0F000
                       (supervisorState savedUserStatus) Hrd HS) s' H)
      as (_ & _ & _ & Hsvc & _). exact (Hsvc eq_refl).
  - destruct (proj1 (flag_setting_write_to_pc 0xE3B0F000 (bankedState FIQ) Hrd HS) s' H)
      as (_ & Hfiq & _). exact (Hfiq eq_refl).
  - destruct (proj1 (flag_setting_write_to_pc 0xE3B0F000 (bankedState IRQ) Hrd HS) s' H)
      as (_ & _ & Hirq & _). exact (Hirq eq_refl).
  - destruct (proj1 (flag_setting_write_to_pc 0xE3B0F000 (bankedState SUPERVISOR) Hrd HS) s' H)
      as (_ & _ & _ & Hsvc & _). exact (Hsvc eq_refl).
  - destruct (proj1 (flag_setting_write_to_pc 0xE3B0F000 (bankedState ABORT) Hrd HS) s' H)
      as (_ & _ & _ & _ & Habt & _). exact (Habt eq_refl).
  - destruct (proj1 (flag_setting_write_to_pc 0xE3B0F000 (bankedState UNDEFINED) Hrd HS) s' H)
      as (_ & _ & _ & _ & _ & Hund). exact (Hund eq_refl).
Defined.

(** MOVS pc, #0 completes in each of the seven modes and installs the saved
    status of that mode; in User and System mode that is the current
    status. *)
Example movs_pc_installs_per_mode :
  endsWith (executeAluInstruction 0xE3B0F000 (bankedState FIQ))
           (fun _ s' => cpsr s' = markedStatus 1)
  /\ endsWith (executeAluInstruction 0xE3B0F000 (bankedState IRQ))
              (fun _ s' => cpsr s' = markedStatus 4)
  /\ endsWith (executeAluInstruction 0xE3B0F000 (bankedState SUPERVISOR))
              (fun _ s' => cpsr s' = markedStatus 2)
  /\ endsWith (executeAluInstruction 0xE3B0F000 (bankedState ABORT))
              (fun _ s' => cpsr s' = markedStatus 3)
  /\ endsWith (executeAluInstruction 0xE3B0F000 (bankedState UNDEFINED))
              (fun _ s' => cpsr s' = markedStatus 5)
  /\ endsWith (executeAluInstruction 0xE3B0F000 (bankedState USER))
              (fun _ s' => cpsr s' = cpsr (bankedState USER))
  /\ endsWith (executeAluInstruction 0xE3B0F000 (bankedState SYSTEM))
              (fun _ s' => cpsr s' = cpsr (bankedState SYSTEM)).
Proof. repeat split; vm_compute; reflexivity. Qed.

(** MOVS pc, #0 in Supervisor mode completes and installs the saved
    Supervisor status. *)
Example movs_pc_installs_saved_status :
  endsWith (executeAluInstruction 0xE3B0F000 (supervisorState savedUserStatus))
           (fun _ s' => cpsr s' = savedUserStatus).
Proof. vm_compute. reflexivity. Qed.

(** ** The amount-0 paths of the barrel shifter *)

Lemma low_nibble_of_low_five (instruction : Z) :
  Z.land instruction (Z.shiftr 0x00000F80 7) = 0 -> Z.land instruction 0x0000000F = 0.
Proof.
  intros H. change 0x0000000F with (Z.land (Z.shiftr 0x00000F80 7) 0x0000000F).
  rewrite Z.land_assoc, H. reflexivity.
Qed.

(** The immediate-amount-0 branches run exactly when the low five bits of
    the word are 0, which makes Rm the register R0.  There LSL returns R0
    and the carry flag, LSR returns 0 and bit 31, ROR returns the RRX word
    and bit 0; ASR calls aluShiftAsr with a count of 32. *)
Lemma amount_zero_on_R0 (instruction : Z) (s : ARM7TDMI) :
  Z.land instruction (Z.shiftr 0x00000F80 7) = 0 ->
  let rm := getRegister 0 s in
  let shiftType := wrap8 (Z.shiftr (Z.land instruction 0x00000060) 5) in
  let c := psr_C (cpsr s) in
  (shiftType = 0 ->
   aluShift instruction false false s
   = Ok (mkAluShiftResult rm c, set_carryBit c s))
  /\ (shiftType = 1 ->
      aluShift instruction false false s
      = Ok (mkAluShiftResult 0 (wrap8 (Z.shiftr rm 31)),
            set_carryBit (wrap8 (Z.shiftr rm 31)) s))
  /\ (shiftType = 2 -> aluShift instruction false false s = Fault UndefinedShift)
  /\ (shiftType = 3 ->
      aluShift instruction false false s
      = Ok (mkAluShiftResult (Z.lor (Z.shiftr rm 1) (wrap32 (Z.shiftl (wrap32 c) 31)))
                             (wrap8 (Z.land rm 1)),
            set_carryBit (wrap8 (Z.land rm 1)) s)).
Proof.
  intros H rm shiftType c.
  pose proof (low_nibble_of_low_five instruction H) as Hrm.
  unfold aluShift. cbv zeta. fold shiftType. rewrite Hrm, H.
  change (wrap8 0) with 0. change (0 =? PC_REGISTER) with false.
  cbn [negb].
  repeat split; intros E; rewrite E; reflexivity.
Qed.

Lemma wrap32_signed32 (x : Z) : u32 x -> wrap32 (signed32 x) = x.
Proof.
  unfold u32, wrap32, signed32. intros H.
  destruct (Z.ltb_spec x (2 ^ 31)); Z.div_mod_to_equations; lia.
Qed.

(** A register-sourced amount whose low byte is 0: ASR returns the base
    operand with bit 31 as carry-out; the other three shift types evaluate
    a shift by 32 or by 2^32 - 1 for the carry-out. *)
Lemma register_amount_zero (instruction : Z) (s : ARM7TDMI) :
  let rsIndex := wrap8 (Z.shiftr (Z.land instruction 0x00000F00) 8) in
  let rmIndex := wrap8 (Z.land instruction 0x0000000F) in
  let shiftType := wrap8 (Z.shiftr (Z.land instruction 0x00000060) 5) in
  let rm := getRegister rmIndex s in
  rsIndex <> 15 -> rmIndex <> PC_REGISTER ->
  Z.land (getRegister rsIndex s) 0x000000FF = 0 -> u32 rm ->
  (shiftType = 2 ->
   aluShift instruction false true s
   = Ok (mkAluShiftResult rm (wrap8 (Z.shiftr rm 31)),
         set_carryBit (wrap8 (Z.shiftr rm 31)) s))
  /\ (shiftType <> 2 -> aluShift instruction false true s = Fault UndefinedShift).
Proof.
  intros rsIndex rmIndex shiftType rm Hrs Hrm Hamount Hu.
  apply Z.eqb_neq in Hrs, Hrm.
  unfold aluShift. cbv zeta. fold rsIndex rmIndex shiftType.
  rewrite Hrm, Hrs. cbn [negb].
  rewrite (bind_Ok (gets (getRegister rmIndex)) _ s s rm eq_refl).
  rewrite (bind_Ok _ _ s s 0).
  2:{ unfold bind, assert, gets, ret. rewrite Hamount. reflexivity. }
  split.
  - intros E. rewrite E. cbn. rewrite wrap32_signed32 by exact Hu. reflexivity.
  - intros E. destruct (Z.eqb_spec shiftType 0); [ reflexivity | ].
    destruct (Z.eqb_spec shiftType 1); [ reflexivity | ].
    destruct (Z.eqb_spec shiftType 2); [ contradiction | ].
    reflexivity.
Qed.

(** ** Evaluations at the inputs of the end-to-end examples *)

(** C1.  CMP on 5 and 5: entering the switch at CMP runs CMN, ORR, MOV, BIC
    and MVN as well, so register [rd] is written (it ends as NOT 5) and the
    flag variables end as Z=0 N=1 C=0 V=0.  The instruction CMP r1, #5 with
    r1 = 5 ends with the same status flags and with r0 overwritten. *)
Theorem cmp_5_5_runs_through_MVN :
  (forall s, let s' := executeAluInstructionOperation CMP 0 5 5 s in
             flagVariables s' = (0, 1, 0, 0) /\ getRegister 0 s' = 0xFFFFFFFA)
  /\ endsWith (executeAluInstruction 0xE3510005 (userState (only 1 5) 0))
              (fun _ s' => statusFlags s' = (0, 1, 0, 0)
                           /\ getRegister 0 s' = 0xFFFFFFFA)
  /\ getRegister 0 (userState (only 1 5) 0) = 0.
Proof.
  split; [ | split; [ vm_compute; split; reflexivity | reflexivity ] ].
  intros s s'. subst s'.
  rewrite alu_switch_suffix by (unfold CMP; lia).
  unfold aluCases. change (Z.to_nat CMP) with 10%nat. cbn [skipn fallthrough].
  split.
  - unfold caseMVN, caseBIC, caseMOV, caseORR, caseCMN, caseCMP. cbv zeta.
    unfold flagVariables. rewrite !setRegister_modeCell. reflexivity.
  - apply caseMVN_result. lia.
Qed.

(** C2.  ADD on 0x7FFFFFFF and 1: the switch runs on to MVN, so the
    destination ends as NOT 1 = 0xFFFFFFFE and the flag variables as Z=0 N=1
    C=0 V=1.  The instruction ADDS r0, r1, #1 with r1 = 0x7FFFFFFF ends with
    r0 = 0xFFFFFFFE and the status flags Z=1 N=1 C=0 V=1: the Z flag is
    assigned from the overflow variable. *)
Theorem add_max_int_runs_through_MVN :
  (forall s, let s' := executeAluInstructionOperation ADD 0 0x7FFFFFFF 1 s in
             getRegister 0 s' = 0xFFFFFFFE /\ flagVariables s' = (0, 1, 0, 1))
  /\ endsWith (executeAluInstruction 0xE2910001 (userState (only 1 0x7FFFFFFF) 0))
              (fun _ s' => getRegister 0 s' = 0xFFFFFFFE
                           /\ statusFlags s' = (1, 1, 0, 1)).
Proof.
  split; [ | vm_compute; split; reflexivity ].
  intros s s'. subst s'.
  rewrite alu_switch_suffix by (unfold ADD; lia).
  unfold aluCases. change (Z.to_nat ADD) with 4%nat. cbn [skipn fallthrough].
  split.
  - apply caseMVN_result. lia.
  - unfold caseMVN, caseBIC, caseMOV, caseORR, caseCMN. cbv zeta.
    unfold flagVariables. rewrite !setRegister_modeCell. reflexivity.
Qed.

(** C4.  The word 0x00000001 is LSL with shift-amount field 0 on R1.  The
    amount the shifter uses is the low five bits of the word, here 1: with
    R1 = 1 and the carry flag set it returns 2 with carry-out 0.  On R0 the
    amount used is 0, and the ASR form then shifts an [int32_t] by 32. *)
Theorem immediate_amount_zero_on_R1 :
  Z.shiftr (Z.land 0x00000001 0x00000F80) 7 = 0
  /\ getRegister 1 (userState (only 1 1) 1) = 1
  /\ psr_C (cpsr (userState (only 1 1) 1)) = 1
  /\ endsWith (aluShift 0x00000001 false false (userState (only 1 1) 1))
              (fun res _ => res = mkAluShiftResult 2 0)
  /\ aluShift 0x00000040 false false (userState (only 0 0x80000000) 0)
     = Fault UndefinedShift.
Proof. repeat split; vm_compute; reflexivity. Qed.

(** C7.  The word 0x00000150 is ASR of R0 by the amount in R1.  With R1 = 0,
    R0 = 0x80000000 and the carry flag clear, the value returned is R0 and
    the carry-out is 1, bit 31 of R0.  The LSL, LSR and ROR forms with the
    same operands shift by 32 or by 2^32 - 1 to find their carry-out. *)
Theorem register_amount_zero_asr_carry :
  Z.land (getRegister 1 (userState (only 0 0x80000000) 0)) 0x000000FF = 0
  /\ psr_C (cpsr (userState (only 0 0x80000000) 0)) = 0
  /\ endsWith (aluShift 0x00000150 false true (userState (only 0 0x80000000) 0))
              (fun res _ => res = mkAluShiftResult 0x80000000 1)
  /\ aluShift 0x00000110 false true (userState (only 0 0x80000000) 0)
     = Fault UndefinedShift
  /\ aluShift 0x00000130 false true (userState (only 0 0x80000000) 0)
     = Fault UndefinedShift
  /\ aluShift 0x00000170 false true (userState (only 0 0x80000000) 0)
     = Fault UndefinedShift.
Proof. repeat split; vm_compute; reflexivity. Qed.

(** * Further properties *)

(** ** Primitive shifts *)

Lemma shr32_ok (v k : Z) : 0 <= k < 32 -> shr32 v k = Ok (Z.shiftr v k).
Proof.
  intros H. unfold shr32.
  destruct (Z.leb_spec 0 k); [ | lia ]. destruct (Z.ltb_spec k 32); [ | lia ].
  reflexivity.
Qed.

Lemma shl32_ok (v k : Z) : 0 <= k < 32 -> shl32 v k = Ok (wrap32 (Z.shiftl v k)).
Proof.
  intros H. unfold shl32.
  destruct (Z.leb_spec 0 k); [ | lia ]. destruct (Z.ltb_spec k 32); [ | lia ].
  reflexivity.
Qed.

Lemma sar32_ok (v k : Z) :
  0 <= k < 32 -> sar32 v k = Ok (wrap32 (Z.shiftr (signed32 v) k)).
Proof.
  intros H. unfold sar32.
  destruct (Z.leb_spec 0 k); [ | lia ]. destruct (Z.ltb_spec k 32); [ | lia ].
  reflexivity.
Qed.

Lemma shr32_fault (v k : Z) : 32 <= k -> shr32 v k = Fault UndefinedShift.
Proof.
  intros H. unfold shr32. destruct (Z.ltb_spec k 32); [ lia | ].
  rewrite andb_false_r. reflexivity.
Qed.

Lemma shl32_fault (v k : Z) : 32 <= k -> shl32 v k = Fault UndefinedShift.
Proof.
  intros H. unfold shl32. destruct (Z.ltb_spec k 32); [ lia | ].
  rewrite andb_false_r. reflexivity.
Qed.

Lemma sar32_fault (v k : Z) : 32 <= k -> sar32 v k = Fault UndefinedShift.
Proof.
  intros H. unfold sar32. destruct (Z.ltb_spec k 32); [ lia | ].
  rewrite andb_false_r. reflexivity.
Qed.

(** ** Rotation *)

Lemma rotate_left_count (shift : Z) :
  0 <= shift < 32 -> Z.land (wrap32 (- shift)) 31 = (32 - shift) mod 32.
Proof.
  intros H. change 31 with (Z.ones 5). rewrite Z.land_ones by lia.
  unfold wrap32. Z.div_mod_to_equations. lia.
Qed.

Lemma aluShiftRor_value (value shift : Z) (s : ARM7TDMI) :
  0 <= shift < 32 ->
  aluShiftRor value shift s
  = Ok (Z.lor (Z.shiftr value shift)
              (wrap32 (Z.shiftl value ((32 - shift) mod 32))), s).
Proof.
  intros H. unfold aluShiftRor.
  assert (Hlt : (shift <? 32) = true) by (apply Z.ltb_lt; lia).
  rewrite Hlt, rotate_left_count by exact H.
  rewrite shr32_ok by exact H.
  rewrite shl32_ok by (apply Z.mod_pos_bound; lia).
  reflexivity.
Qed.

Lemma u32_high_bits (x i : Z) : u32 x -> 32 <= i -> Z.testbit x i = false.
Proof.
  intros Hx Hi. unfold u32 in Hx.
  rewrite <- (Z.mod_small x (2 ^ 32)) by lia.
  apply Z.mod_pow2_bits_high. lia.
Qed.

Lemma rotated_bit (value shift i : Z) :
  u32 value -> 0 <= shift < 32 -> 0 <= i < 32 ->
  Z.testbit (Z.lor (Z.shiftr value shift)
                   (wrap32 (Z.shiftl value ((32 - shift) mod 32)))) i
  = Z.testbit value ((i + shift) mod 32).
Proof.
  intros Hv Hs Hi.
  rewrite Z.lor_spec, Z.shiftr_spec by lia.
  unfold wrap32. rewrite Z.testbit_mod_pow2 by lia.
  assert (Hlt : (i <? 32) = true) by (apply Z.ltb_lt; lia).
  rewrite Hlt. cbn [andb]. rewrite Z.shiftl_spec by lia.
  destruct (Z.eq_dec shift 0) as [-> | Hne].
  - change ((32 - 0) mod 32) with 0. rewrite Z.add_0_r, Z.sub_0_r.
    rewrite Z.mod_small by lia. apply orb_diag.
  - replace ((32 - shift) mod 32) with (32 - shift)
      by (symmetry; apply Z.mod_small; lia).
    destruct (Z_lt_dec (i + shift) 32) as [Hlow | Hhigh].
    + rewrite (Z.mod_small (i + shift)) by lia.
      rewrite (Z.testbit_neg_r value (i - (32 - shift))) by lia.
      apply orb_false_r.
    + rewrite (u32_high_bits value (i + shift)) by (assumption || lia).
      replace ((i + shift) mod 32) with (i - (32 - shift))
        by (Z.div_mod_to_equations; lia).
      reflexivity.
Qed.

Lemma lor_u32 (a b : Z) : u32 a -> u32 b -> u32 (Z.lor a b).
Proof.
  unfold u32. intros Ha Hb.
  assert (E : Z.lor a b = Z.lor a b mod 2 ^ 32).
  { rewrite <- Z.land_ones by lia. rewrite Z.land_lor_distr_l.
    rewrite !Z.land_ones by lia. rewrite !Z.mod_small by lia. reflexivity. }
  rewrite E. apply Z.mod_pos_bound. lia.
Qed.

Lemma shiftr_u32 (x k : Z) : u32 x -> 0 <= k -> u32 (Z.shiftr x k).
Proof.
  unfold u32. intros Hx Hk. rewrite Z.shiftr_div_pow2 by lia.
  assert (0 < 2 ^ k) by (apply Z.pow_pos_nonneg; lia).
  split; [ apply Z.div_pos; lia | ].
  apply Z.div_lt_upper_bound; [ lia | nia ].
Qed.

(** X1.  For a 32-bit value and a count below 32, aluShiftRor completes,
    leaves the processor alone and returns the 32-bit word whose bit i is
    bit (i + shift) mod 32 of the value: a rotation to the right. *)
Theorem aluShiftRor_rotates (value shift : Z) (s : ARM7TDMI) :
  u32 value -> 0 <= shift < 32 ->
  exists v, aluShiftRor value shift s = Ok (v, s)
            /\ u32 v
            /\ (forall i, 0 <= i < 32 ->
                          Z.testbit v i = Z.testbit value ((i + shift) mod 32)).
Proof.
  intros Hv Hs. eexists. split; [ apply aluShiftRor_value; exact Hs | ].
  split.
  - apply lor_u32; [ apply shiftr_u32; [ exact Hv | lia ] | apply wrap32_range ].
  - intros i Hi. apply rotated_bit; assumption.
Qed.

Lemma aluShiftRor_rotates_witness :
  u32 0x00000001 /\ 0 <= 1 < 32
  /\ exists v, aluShiftRor 0x00000001 1 construct = Ok (v, construct) /\ u32 v
               /\ (forall i, 0 <= i < 32 ->
                             Z.testbit v i = Z.testbit 0x00000001 ((i + 1) mod 32)).
Proof.
  assert (Hv : u32 0x00000001) by (unfold u32; lia).
  assert (Hs : 0 <= 1 < 32) by lia.
  split; [ exact Hv | split; [ exact Hs | ] ].
  exact (aluShiftRor_rotates 0x00000001 1 construct Hv Hs).
Defined.

Lemma rotate_back_index (i k : Z) :
  0 <= i < 32 -> 0 < k < 32 -> ((i + (32 - k)) mod 32 + k) mod 32 = i.
Proof. intros Hi Hk. Z.div_mod_to_equations. lia. Qed.

(** X2.  Rotating a 32-bit value right by k and the outcome by 32 - k gives
    the value back, for 0 < k < 32. *)
Theorem aluShiftRor_round_trip (value k : Z) (s : ARM7TDMI) :
  u32 value -> 0 < k < 32 ->
  exists v, aluShiftRor value k s = Ok (v, s)
            /\ aluShiftRor v (32 - k) s = Ok (value, s).
Proof.
  intros Hv Hk.
  eexists. split; [ apply aluShiftRor_value; lia | ].
  rewrite aluShiftRor_value by lia. f_equal. f_equal.
  set (v := Z.lor (Z.shiftr value k) (wrap32 (Z.shiftl value ((32 - k) mod 32)))).
  assert (Hu : u32 v).
  { apply lor_u32; [ apply shiftr_u32; [ exact Hv | lia ] | apply wrap32_range ]. }
  apply Z.bits_inj'. intros i Hi.
  destruct (Z_lt_dec i 32) as [Hlt | Hge].
  - rewrite rotated_bit by (assumption || lia).
    unfold v. rewrite rotated_bit by first [ assumption | lia | apply Z.mod_pos_bound; lia ].
    rewrite rotate_back_index by lia. reflexivity.
  - rewrite (u32_high_bits value i) by (assumption || lia).
    apply u32_high_bits; [ | lia ].
    apply lor_u32; [ apply shiftr_u32; [ exact Hu | lia ] | apply wrap32_range ].
Qed.

Lemma aluShiftRor_round_trip_witness :
  u32 0x80000001 /\ 0 < 4 < 32
  /\ exists v, aluShiftRor 0x80000001 4 construct = Ok (v, construct)
               /\ aluShiftRor v (32 - 4) construct = Ok (0x80000001, construct).
Proof.
  assert (Hv : u32 0x80000001) by (unfold u32; lia).
  assert (Hk : 0 < 4 < 32) by lia.
  split; [ exact Hv | split; [ exact Hk | ] ].
  exact (aluShiftRor_round_trip 0x80000001 4 construct Hv Hk).
Defined.

(** ** The immediate operand of the barrel shifter *)

Lemma immediate_byte_range (instruction : Z) : u32 (Z.land instruction 0x000000FF).
Proof.
  pose proof (land_under_mask instruction 0x000000FF 8 ltac:(lia) eq_refl) as H.
  unfold u32. simpl in H. lia.
Qed.

Lemma rotate_field_even (instruction : Z) :
  wrap8 (Z.shiftr (Z.land instruction 0x00000F00) 7)
  = 2 * Z.shiftr (Z.land instruction 0x00000F00) 8.
Proof.
  pose proof (land_under_mask instruction 0x00000F00 12 ltac:(lia) eq_refl) as Hr.
  assert (Hlow : Z.land instruction 0x00000F00 mod 2 ^ 8 = 0).
  { rewrite <- Z.land_ones by lia. rewrite <- Z.land_assoc. apply Z.land_0_r. }
  rewrite !Z.shiftr_div_pow2 by lia. unfold wrap8.
  change (2 ^ 12) with 4096 in Hr. change (2 ^ 8) with 256 in *.
  change (2 ^ 7) with 128.
  Z.div_mod_to_equations. lia.
Qed.

Lemma aluShift_immediate_value (instruction : Z) (r : bool) (s : ARM7TDMI) :
  let imm := Z.land instruction 0x000000FF in
  let amount := wrap8 (Z.shiftr (Z.land instruction 0x00000F00) 7) in
  let rotated := Z.lor (Z.shiftr imm amount)
                       (wrap32 (Z.shiftl imm ((32 - amount) mod 32))) in
  aluShift instruction true r s
  = if 0 <? amount
    then Ok (mkAluShiftResult rotated (wrap8 (Z.shiftr imm (amount - 1))),
             set_carryBit (wrap8 (Z.shiftr imm (amount - 1))) s)
    else Ok (mkAluShiftResult rotated (carryBit s), s).
Proof.
  intros imm amount rotated.
  pose proof (rotate_field_range instruction) as Hr. fold amount in Hr.
  unfold aluShift. cbv zeta. fold imm amount.
  assert (Hm : wrap8 (amount mod 32) = amount).
  { rewrite Z.mod_small by lia. apply wrap8_small. lia. }
  rewrite Hm.
  rewrite (bind_Ok _ _ s s rotated (aluShiftRor_value imm amount s Hr)).
  destruct (Z.ltb_spec 0 amount) as [Hpos | Hzero].
  - rewrite shr32_ok by lia. reflexivity.
  - reflexivity.
Qed.

(** X3.  In the immediate-operand form aluShift always completes.  The
    rotate amount is twice the four-bit rotate field; bit i of the operand
    is bit (i + amount) mod 32 of the eight-bit immediate.  With amount 0
    the operand is the immediate, the processor is untouched and the carry
    returned is the stored [carryBit] variable; otherwise only [carryBit]
    is written, and its lowest bit is bit 31 of the operand. *)
Theorem aluShift_immediate_operand (instruction : Z) (r : bool) (s : ARM7TDMI) :
  let imm := Z.land instruction 0x000000FF in
  let amount := wrap8 (Z.shiftr (Z.land instruction 0x00000F00) 7) in
  exists res s',
    aluShift instruction true r s = Ok (res, s')
    /\ amount = 2 * Z.shiftr (Z.land instruction 0x00000F00) 8
    /\ (forall i, 0 <= i < 32 ->
                  Z.testbit (op2 res) i = Z.testbit imm ((i + amount) mod 32))
    /\ (amount = 0 -> op2 res = imm /\ carry res = carryBit s /\ s' = s)
    /\ (0 < amount ->
        Z.testbit (carry res) 0 = Z.testbit (op2 res) 31
        /\ s' = set_carryBit (carry res) s).
Proof.
  intros imm amount.
  pose proof (rotate_field_range instruction) as Hr. fold amount in Hr.
  pose proof (immediate_byte_range instruction) as Himm. fold imm in Himm.
  pose proof (aluShift_immediate_value instruction r s) as E.
  cbv zeta in E. fold imm amount in E.
  assert (Hbits : forall i, 0 <= i < 32 ->
            Z.testbit (Z.lor (Z.shiftr imm amount)
                             (wrap32 (Z.shiftl imm ((32 - amount) mod 32)))) i
            = Z.testbit imm ((i + amount) mod 32)).
  { intros i Hi. apply rotated_bit; assumption. }
  destruct (Z.ltb_spec 0 amount) as [Hpos | Hzero].
  - eexists. eexists. split; [ exact E | ].
    split; [ apply rotate_field_even | ].
    split; [ exact Hbits | ].
    split; [ intros H0; lia | ].
    intros _. cbn [op2 carry]. split; [ | reflexivity ].
    rewrite Hbits by lia. unfold wrap8.
    rewrite Z.mod_pow2_bits_low by lia.
    rewrite Z.shiftr_spec by lia.
    f_equal. Z.div_mod_to_equations. lia.
  - eexists. eexists. split; [ exact E | ].
    split; [ apply rotate_field_even | ].
    split; [ exact Hbits | ].
    split; [ | intros H0; lia ].
    intros H0. cbn [op2 carry]. split; [ | split; reflexivity ].
    rewrite H0. change ((32 - 0) mod 32) with 0.
    rewrite Z.shiftr_0_r, Z.shiftl_0_r.
    unfold wrap32. unfold u32 in Himm. rewrite Z.mod_small by lia.
    apply Z.lor_diag.
Qed.

Lemma aluShift_immediate_operand_witness :
  exists res s',
    aluShift 0xE3A004FF true false construct = Ok (res, s')
    /\ wrap8 (Z.shiftr (Z.land 0xE3A004FF 0x00000F00) 7)
       = 2 * Z.shiftr (Z.land 0xE3A004FF 0x00000F00) 8
    /\ (forall i, 0 <= i < 32 ->
          Z.testbit (op2 res) i
          = Z.testbit (Z.land 0xE3A004FF 0x000000FF)
              ((i + wrap8 (Z.shiftr (Z.land 0xE3A004FF 0x00000F00) 7)) mod 32))
    /\ (wrap8 (Z.shiftr (Z.land 0xE3A004FF 0x00000F00) 7) = 0 ->
        op2 res = Z.land 0xE3A004FF 0x000000FF
        /\ carry res = carryBit construct /\ s' = construct)
    /\ (0 < wrap8 (Z.shiftr (Z.land 0xE3A004FF 0x00000F00) 7) ->
        Z.testbit (carry res) 0 = Z.testbit (op2 res) 31
        /\ s' = set_carryBit (carry res) construct).
Proof. exact (aluShift_immediate_operand 0xE3A004FF false construct). Defined.

(** ** The register form of the barrel shifter, by shift amount *)

Lemma wrap32_small (x : Z) : 0 <= x < 2 ^ 32 -> wrap32 x = x.
Proof. intros H. unfold wrap32. apply Z.mod_small. exact H. Qed.

Lemma shift_type_range (instruction : Z) :
  0 <= wrap8 (Z.shiftr (Z.land instruction 0x00000060) 5) <= 3.
Proof.
  pose proof (land_under_mask instruction 0x00000060 7 ltac:(lia) eq_refl) as H.
  rewrite Z.shiftr_div_pow2 by lia. unfold wrap8.
  change (2 ^ 7) with 128 in H. change (2 ^ 5) with 32. change (2 ^ 8) with 256.
  Z.div_mod_to_equations. lia.
Qed.

Lemma immediate_amount_range (instruction : Z) :
  0 <= Z.land instruction (Z.shiftr 0x00000F80 7) <= 31.
Proof.
  pose proof (land_under_mask instruction (Z.shiftr 0x00000F80 7) 5 ltac:(lia) eq_refl) as H.
  change (2 ^ 5) with 32 in H. lia.
Qed.

Lemma register_amount_range (v : Z) : 0 <= Z.land v 0x000000FF <= 255.
Proof.
  pose proof (land_under_mask v 0x000000FF 8 ltac:(lia) eq_refl) as H.
  change (2 ^ 8) with 256 in H. lia.
Qed.

(** The code up to the dispatch on the shift type: the base operand and the
    amount are read, and [immOpIsZero] is false for a non-zero amount. *)
Lemma aluShift_register_prefix (instruction : Z) (r : bool) (s : ARM7TDMI) :
  let rsIndex := wrap8 (Z.shiftr (Z.land instruction 0x00000F00) 8) in
  let rmIndex := wrap8 (Z.land instruction 0x0000000F) in
  let shiftType := wrap8 (Z.shiftr (Z.land instruction 0x00000060) 5) in
  let rm0 := getRegister rmIndex s in
  let rm := if negb (rmIndex =? PC_REGISTER) then rm0
            else if r then wrap32 (rm0 + 12) else wrap32 (rm0 + 8) in
  let n := if r then Z.land (getRegister rsIndex s) 0x000000FF
           else Z.land instruction (Z.shiftr 0x00000F80 7) in
  (r = true -> rsIndex <> 15) -> (r = false -> n <> 0) ->
  aluShift instruction false r s
  = bind
      (if shiftType =? 0 then
         v <- aluShiftLsl rm (wrap8 n) ;;
         c <- lift (shr32 rm (wrap32 (32 - n))) ;;
         modify (set_carryBit (Z.land c 1)) ;; ret v
       else if shiftType =? 1 then
         v <- aluShiftLsr rm (wrap8 n) ;;
         c <- lift (shr32 rm (wrap32 (n - 1))) ;;
         modify (set_carryBit (Z.land c 1)) ;; ret v
       else if shiftType =? 2 then
         v <- aluShiftAsr rm (wrap8 n) ;;
         c <- lift (shr32 rm 31) ;;
         modify (set_carryBit (wrap8 c)) ;; ret v
       else
         v <- aluShiftRor rm (wrap8 (n mod 32)) ;;
         c <- lift (shr32 rm (wrap32 (n - 1))) ;;
         modify (set_carryBit (Z.land c 1)) ;; ret v)
      (fun shifted => cb <- gets carryBit ;; ret (mkAluShiftResult shifted cb)) s.
Proof.
  intros rsIndex rmIndex shiftType rm0 rm n Hrs Hn.
  unfold aluShift. cbv zeta. fold rsIndex rmIndex shiftType.
  rewrite (bind_Ok (gets (getRegister rmIndex)) _ s s rm0 eq_refl).
  destruct r.
  - specialize (Hrs eq_refl). apply Z.eqb_neq in Hrs.
    rewrite (bind_Ok _ _ s s n).
    2:{ unfold bind, assert, gets, ret. rewrite Hrs. reflexivity. }
    reflexivity.
  - rewrite (bind_Ok _ _ s s n eq_refl).
    specialize (Hn eq_refl). apply Z.eqb_neq in Hn. rewrite Hn. reflexivity.
Qed.

Lemma aluShift_amount_in_range (instruction : Z) (r : bool) (s : ARM7TDMI) :
  let rsIndex := wrap8 (Z.shiftr (Z.land instruction 0x00000F00) 8) in
  let rmIndex := wrap8 (Z.land instruction 0x0000000F) in
  let shiftType := wrap8 (Z.shiftr (Z.land instruction 0x00000060) 5) in
  let rm0 := getRegister rmIndex s in
  let rm := if negb (rmIndex =? PC_REGISTER) then rm0
            else if r then wrap32 (rm0 + 12) else wrap32 (rm0 + 8) in
  let n := if r then Z.land (getRegister rsIndex s) 0x000000FF
           else Z.land instruction (Z.shiftr 0x00000F80 7) in
  (r = true -> rsIndex <> 15) -> 1 <= n <= 31 ->
  aluShift instruction false r s
  = let out (v c : Z) := Ok (mkAluShiftResult v c, set_carryBit c s) in
    if shiftType =? 0 then
      out (wrap32 (Z.shiftl rm n)) (Z.land (Z.shiftr rm (32 - n)) 1)
    else if shiftType =? 1 then
      out (Z.shiftr rm n) (Z.land (Z.shiftr rm (n - 1)) 1)
    else if shiftType =? 2 then
      out (wrap32 (Z.shiftr (signed32 rm) n)) (wrap8 (Z.shiftr rm 31))
    else
      out (Z.lor (Z.shiftr rm n) (wrap32 (Z.shiftl rm ((32 - n) mod 32))))
          (Z.land (Z.shiftr rm (n - 1)) 1).
Proof.
  intros rsIndex rmIndex shiftType rm0 rm n Hrs Hn.
  rewrite aluShift_register_prefix by (assumption || (intros _; fold rsIndex n; lia)).
  fold rsIndex rmIndex shiftType rm0 rm n.
  rewrite (wrap8_small n) by lia.
  rewrite (wrap32_small (32 - n)), (wrap32_small (n - 1)) by lia.
  rewrite (Z.mod_small n 32), (wrap8_small n) by lia.
  unfold aluShiftLsl, aluShiftLsr, aluShiftAsr.
  rewrite (shl32_ok rm n), (shr32_ok rm (32 - n)), (shr32_ok rm n),
    (shr32_ok rm (n - 1)), (sar32_ok rm n), (shr32_ok rm 31) by lia.
  cbv zeta.
  destruct (shiftType =? 0); [ reflexivity | ].
  destruct (shiftType =? 1); [ reflexivity | ].
  destruct (shiftType =? 2); [ reflexivity | ].
  unfold bind. rewrite aluShiftRor_value by lia. reflexivity.
Qed.

(** The four branches of the dispatch, as functions of the amount. *)

Lemma lsl_branch (rm n : Z) (s : ARM7TDMI) :
  0 <= n <= 255 ->
  (v <- aluShiftLsl rm (wrap8 n) ;;
   c <- lift (shr32 rm (wrap32 (32 - n))) ;;
   modify (set_carryBit (Z.land c 1)) ;; ret v) s
  = if (1 <=? n) && (n <=? 31)
    then Ok (wrap32 (Z.shiftl rm n),
             set_carryBit (Z.land (Z.shiftr rm (32 - n)) 1) s)
    else Fault UndefinedShift.
Proof.
  intros H. rewrite wrap8_small by lia. unfold aluShiftLsl, bind, lift.
  destruct (Z.leb_spec 1 n); destruct (Z.leb_spec n 31); cbn [andb].
  - rewrite shl32_ok, wrap32_small, shr32_ok by lia. reflexivity.
  - rewrite shl32_fault by lia. reflexivity.
  - assert (n = 0) as -> by lia.
    rewrite shl32_ok by lia. change (wrap32 (32 - 0)) with 32.
    rewrite shr32_fault by lia. reflexivity.
  - lia.
Qed.

Lemma lsr_branch (rm n : Z) (s : ARM7TDMI) :
  0 <= n <= 255 ->
  (v <- aluShiftLsr rm (wrap8 n) ;;
   c <- lift (shr32 rm (wrap32 (n - 1))) ;;
   modify (set_carryBit (Z.land c 1)) ;; ret v) s
  = if (1 <=? n) && (n <=? 31)
    then Ok (Z.shiftr rm n, set_carryBit (Z.land (Z.shiftr rm (n - 1)) 1) s)
    else Fault UndefinedShift.
Proof.
  intros H. rewrite wrap8_small by lia. unfold aluShiftLsr, bind, lift.
  destruct (Z.leb_spec 1 n); destruct (Z.leb_spec n 31); cbn [andb].
  - rewrite shr32_ok, wrap32_small, shr32_ok by lia. reflexivity.
  - rewrite shr32_fault by lia. reflexivity.
  - assert (n = 0) as -> by lia.
    rewrite shr32_ok by lia. change (wrap32 (0 - 1)) with (2 ^ 32 - 1).
    rewrite shr32_fault by lia. reflexivity.
  - lia.
Qed.

Lemma asr_branch (rm n : Z) (s : ARM7TDMI) :
  0 <= n <= 255 ->
  (v <- aluShiftAsr rm (wrap8 n) ;;
   c <- lift (shr32 rm 31) ;;
   modify (set_carryBit (wrap8 c)) ;; ret v) s
  = if n <=? 31
    then Ok (wrap32 (Z.shiftr (signed32 rm) n),
             set_carryBit (wrap8 (Z.shiftr rm 31)) s)
    else Fault UndefinedShift.
Proof.
  intros H. rewrite wrap8_small by lia. unfold aluShiftAsr, bind, lift.
  destruct (Z.leb_spec n 31).
  - rewrite sar32_ok, shr32_ok by lia. reflexivity.
  - rewrite sar32_fault by lia. reflexivity.
Qed.

Lemma ror_branch (rm n : Z) (s : ARM7TDMI) :
  0 <= n <= 255 ->
  (v <- aluShiftRor rm (wrap8 (n mod 32)) ;;
   c <- lift (shr32 rm (wrap32 (n - 1))) ;;
   modify (set_carryBit (Z.land c 1)) ;; ret v) s
  = if (1 <=? n) && (n <=? 32)
    then Ok (Z.lor (Z.shiftr rm (n mod 32))
                   (wrap32 (Z.shiftl rm ((32 - n mod 32) mod 32))),
             set_carryBit (Z.land (Z.shiftr rm (n - 1)) 1) s)
    else Fault UndefinedShift.
Proof.
  intros H.
  assert (Hm : 0 <= n mod 32 < 32) by (apply Z.mod_pos_bound; lia).
  rewrite wrap8_small by lia. unfold bind, lift.
  rewrite aluShiftRor_value by exact Hm.
  destruct (Z.leb_spec 1 n); destruct (Z.leb_spec n 32); cbn [andb].
  - rewrite wrap32_small, shr32_ok by lia. reflexivity.
  - rewrite wrap32_small, shr32_fault by lia. reflexivity.
  - assert (n = 0) as -> by lia. change (wrap32 (0 - 1)) with (2 ^ 32 - 1).
    rewrite shr32_fault by lia. reflexivity.
  - lia.
Qed.

(** X4.  With the amount taken from the instruction word (the low five bits
    of the word), the register form of aluShift faults only in the ASR form
    with amount 0, where it shifts an [int32_t] by 32; every other word
    completes. *)
Theorem aluShift_immediate_amount_outcome (instruction : Z) (s : ARM7TDMI) :
  let n := Z.land instruction (Z.shiftr 0x00000F80 7) in
  let shiftType := wrap8 (Z.shiftr (Z.land instruction 0x00000060) 5) in
  if (shiftType =? 2) && (n =? 0)
  then aluShift instruction false false s = Fault UndefinedShift
  else exists res s', aluShift instruction false false s = Ok (res, s').
Proof.
  intros n shiftType.
  pose proof (immediate_amount_range instruction) as Hn. fold n in Hn.
  pose proof (shift_type_range instruction) as Ht. fold shiftType in Ht.
  destruct (Z.eqb_spec n 0) as [Hz | Hnz].
  - destruct (amount_zero_on_R0 instruction s Hz) as (H0 & H1 & H2 & H3).
    fold shiftType in H0, H1, H2, H3.
    destruct (Z.eqb_spec shiftType 2) as [E | E]; cbn [andb]; [ exact (H2 E) | ].
    assert (shiftType = 0 \/ shiftType = 1 \/ shiftType = 3) as [E0 | [E1 | E3]] by lia;
      eexists; eexists; [ exact (H0 E0) | exact (H1 E1) | exact (H3 E3) ].
  - rewrite andb_false_r.
    pose proof (aluShift_amount_in_range instruction false s) as E.
    cbv zeta in E. fold n shiftType in E.
    rewrite E by (discriminate || lia).
    destruct (shiftType =? 0); [ eexists; eexists; reflexivity | ].
    destruct (shiftType =? 1); [ eexists; eexists; reflexivity | ].
    destruct (shiftType =? 2); eexists; eexists; reflexivity.
Qed.

(** X5.  With the amount taken from a register: naming R15 as the amount
    register fails the assertion.  Otherwise, with n the low byte of the
    amount register, aluShift completes exactly when 1 <= n <= 31, or n = 0
    in the ASR form, or n = 32 in the ROR form; for every other amount it
    evaluates a shift by 32 or more. *)
Theorem aluShift_register_amount_outcome (instruction : Z) (s : ARM7TDMI) :
  let rsIndex := wrap8 (Z.shiftr (Z.land instruction 0x00000F00) 8) in
  let n := Z.land (getRegister rsIndex s) 0x000000FF in
  let shiftType := wrap8 (Z.shiftr (Z.land instruction 0x00000060) 5) in
  if rsIndex =? 15
  then aluShift instruction false true s = Fault AssertionFailed
  else if ((1 <=? n) && (n <=? 31)) || ((n =? 0) && (shiftType =? 2))
          || ((n =? 32) && (shiftType =? 3))
       then exists res s', aluShift instruction false true s = Ok (res, s')
       else aluShift instruction false true s = Fault UndefinedShift.
Proof.
  intros rsIndex n shiftType.
  pose proof (register_amount_range (getRegister rsIndex s)) as Hn. fold n in Hn.
  pose proof (shift_type_range instruction) as Ht. fold shiftType in Ht.
  destruct (Z.eqb_spec rsIndex 15) as [Hrs | Hrs].
  - unfold aluShift. cbv zeta. fold rsIndex.
    rewrite (bind_Ok (gets (getRegister _)) _ s s _ eq_refl).
    apply bind_Fault. unfold bind, assert.
    apply Z.eqb_eq in Hrs. rewrite Hrs. reflexivity.
  - pose proof (aluShift_register_prefix instruction true s) as E.
    cbv zeta in E. fold rsIndex n shiftType in E.
    specialize (E ltac:(intros _; exact Hrs) ltac:(discriminate)).
    remember (aluShift instruction false true s) as run eqn:Hrun. clear Hrun.
    unfold bind at 1 in E.
    destruct (Z.eqb_spec shiftType 0) as [E0 | E0];
      [ rewrite lsl_branch in E by lia | ].
    2: destruct (Z.eqb_spec shiftType 1) as [E1 | E1];
         [ rewrite lsr_branch in E by lia | ].
    3: destruct (Z.eqb_spec shiftType 2) as [E2 | E2];
         [ rewrite asr_branch in E by lia | rewrite ror_branch in E by lia ].
    all: subst run;
      destruct (Z.leb_spec 1 n); destruct (Z.leb_spec n 31);
      destruct (Z.eqb_spec n 0); destruct (Z.eqb_spec n 32);
      destruct (Z.eqb_spec shiftType 3); destruct (Z.eqb_spec shiftType 2);
      try destruct (Z.leb_spec n 32);
      cbn [andb orb]; try lia;
      first [ reflexivity | eexists; eexists; reflexivity ].
Qed.

(** ** Values of the four shift types for amounts 1..31 *)

Lemma shifted_out_bit (x k : Z) :
  0 <= k -> Z.land (Z.shiftr x k) 1 = Z.b2z (Z.testbit x k).
Proof.
  intros H. change 1 with (Z.ones 1) at 1. rewrite Z.land_ones by lia.
  rewrite Z.testbit_spec' by exact H. rewrite Z.shiftr_div_pow2 by exact H.
  reflexivity.
Qed.

Lemma top_bit_byte (x : Z) : u32 x -> wrap8 (Z.shiftr x 31) = Z.b2z (Z.testbit x 31).
Proof.
  intros H. rewrite Z.testbit_eqb, Z.shiftr_div_pow2 by lia.
  destruct (word_top_bit x H) as [E | E]; rewrite E; reflexivity.
Qed.

Lemma top_bit_of_large (x : Z) : u32 x -> Z.testbit x 31 = (2 ^ 31 <=? x).
Proof.
  intros H. rewrite <- sign_is_bit31 by exact H.
  unfold aluSetsSignBit, truthy. rewrite Z.shiftr_div_pow2 by lia.
  unfold u32 in H.
  destruct (word_top_bit x H) as [E | E]; rewrite E;
    destruct (Z.leb_spec (2 ^ 31) x); try reflexivity; exfalso;
    revert E; Z.div_mod_to_equations; lia.
Qed.

Lemma signed32_bits (x j : Z) :
  u32 x -> 0 <= j -> Z.testbit (signed32 x) j = Z.testbit x (Z.min j 31).
Proof.
  intros Hx Hj. pose proof (top_bit_of_large x Hx) as Htop.
  unfold signed32.
  destruct (Z.ltb_spec x (2 ^ 31)) as [Hsmall | Hlarge].
  - destruct (Z.leb_spec (2 ^ 31) x); [ lia | ].
    destruct (Z_le_dec j 31).
    + rewrite Z.min_l by lia. reflexivity.
    + rewrite Z.min_r by lia. rewrite Htop.
      apply u32_high_bits; [ exact Hx | lia ].
  - destruct (Z.leb_spec (2 ^ 31) x); [ | lia ].
    assert (Hdisjoint : Z.land x (Z.shiftl (-1) 32) = 0).
    { apply Z.bits_inj'. intros i Hi. rewrite Z.land_spec, Z.bits_0.
      destruct (Z_lt_dec i 32).
      - rewrite Z.shiftl_spec_low by lia. apply andb_false_r.
      - rewrite (u32_high_bits x i) by (assumption || lia). reflexivity. }
    replace (x - 2 ^ 32) with (Z.lor x (Z.shiftl (-1) 32)).
    2:{ rewrite <- Z.lxor_lor, <- Z.add_nocarry_lxor by exact Hdisjoint.
        change (Z.shiftl (-1) 32) with (- 2 ^ 32). lia. }
    rewrite Z.lor_spec, Z.shiftl_spec by exact Hj.
    destruct (Z_le_dec j 31).
    + rewrite Z.min_l by lia. rewrite (Z.testbit_neg_r (-1)) by lia.
      apply orb_false_r.
    + rewrite Z.min_r by lia. rewrite Htop, Z.bits_m1 by lia.
      apply orb_true_r.
Qed.

(** X6.  For a shift amount n with 1 <= n <= 31, taken from the word or from
    a register other than R15, and a 32-bit base operand rm, aluShift
    completes and writes only [carryBit].  Bit i of the operand returned is
    bit i - n of rm for LSL (0 below n), bit i + n for LSR, bit
    min (i + n) 31 for ASR and bit (i + n) mod 32 for ROR.  The carry-out is
    bit 32 - n of rm for LSL and bit n - 1 for LSR and ROR; for ASR it is
    bit 31 of rm whatever the amount. *)
Theorem aluShift_amount_in_range_bits (instruction : Z) (r : bool) (s : ARM7TDMI) :
  let rsIndex := wrap8 (Z.shiftr (Z.land instruction 0x00000F00) 8) in
  let rmIndex := wrap8 (Z.land instruction 0x0000000F) in
  let shiftType := wrap8 (Z.shiftr (Z.land instruction 0x00000060) 5) in
  let rm0 := getRegister rmIndex s in
  let rm := if negb (rmIndex =? PC_REGISTER) then rm0
            else if r then wrap32 (rm0 + 12) else wrap32 (rm0 + 8) in
  let n := if r then Z.land (getRegister rsIndex s) 0x000000FF
           else Z.land instruction (Z.shiftr 0x00000F80 7) in
  (r = true -> rsIndex <> 15) -> 1 <= n <= 31 -> u32 rm ->
  exists res s',
    aluShift instruction false r s = Ok (res, s')
    /\ s' = set_carryBit (carry res) s
    /\ (forall i, 0 <= i < 32 ->
          Z.testbit (op2 res) i
          = if shiftType =? 0 then (n <=? i) && Z.testbit rm (i - n)
            else if shiftType =? 1 then Z.testbit rm (i + n)
            else if shiftType =? 2 then Z.testbit rm (Z.min (i + n) 31)
            else Z.testbit rm ((i + n) mod 32))
    /\ carry res
       = Z.b2z (if shiftType =? 0 then Z.testbit rm (32 - n)
                else if shiftType =? 2 then Z.testbit rm 31
                else Z.testbit rm (n - 1)).
Proof.
  intros rsIndex rmIndex shiftType rm0 rm n Hrs Hn Hrm.
  pose proof (aluShift_amount_in_range instruction r s Hrs Hn) as E.
  cbv zeta in E. fold rsIndex rmIndex shiftType rm0 rm n in E.
  rewrite E. clear E.
  assert (Hlt : forall i, 0 <= i < 32 -> (i <? 32) = true)
    by (intros i Hi; apply Z.ltb_lt; lia).
  destruct (Z.eqb_spec shiftType 0) as [E0 | E0];
    destruct (Z.eqb_spec shiftType 1) as [E1 | E1];
    destruct (Z.eqb_spec shiftType 2) as [E2 | E2]; try lia;
    eexists; eexists; (split; [ reflexivity | ]); cbn [op2 carry];
    (split; [ reflexivity | ]); split.
  - intros i Hi. unfold wrap32. rewrite Z.testbit_mod_pow2, (Hlt i Hi) by lia.
    cbn [andb]. rewrite Z.shiftl_spec by lia.
    destruct (Z.leb_spec n i); [ reflexivity | ].
    apply Z.testbit_neg_r. lia.
  - apply shifted_out_bit. lia.
  - intros i Hi. apply Z.shiftr_spec. lia.
  - apply shifted_out_bit. lia.
  - intros i Hi. unfold wrap32. rewrite Z.testbit_mod_pow2, (Hlt i Hi) by lia.
    cbn [andb]. rewrite Z.shiftr_spec by lia.
    apply signed32_bits; [ exact Hrm | lia ].
  - apply top_bit_byte. exact Hrm.
  - intros i Hi. apply rotated_bit; [ exact Hrm | lia | exact Hi ].
  - apply shifted_out_bit. lia.
Qed.

Lemma aluShift_amount_in_range_bits_witness :
  (true = true -> wrap8 (Z.shiftr (Z.land 0x00000150 0x00000F00) 8) <> 15)
  /\ 1 <= Z.land (getRegister 1 (userState (fun i => if i =? 1 then 4 else 0x80000000) 0))
               0x000000FF <= 31
  /\ u32 (getRegister 0 (userState (fun i => if i =? 1 then 4 else 0x80000000) 0))
  /\ exists res s',
       aluShift 0x00000150 false true
         (userState (fun i => if i =? 1 then 4 else 0x80000000) 0) = Ok (res, s')
       /\ carry res = 1.
Proof.
  assert (H1 : true = true -> wrap8 (Z.shiftr (Z.land 0x00000150 0x00000F00) 8) <> 15)
    by (intros _; discriminate).
  assert (H2 : 1 <= Z.land (getRegister 1
                  (userState (fun i => if i =? 1 then 4 else 0x80000000) 0))
                  0x000000FF <= 31) by (vm_compute; split; discriminate).
  assert (H3 : u32 (getRegister 0
                  (userState (fun i => if i =? 1 then 4 else 0x80000000) 0)))
    by (vm_compute; split; [ discriminate | reflexivity ]).
  split; [ exact H1 | split; [ exact H2 | split; [ exact H3 | ] ] ].
  destruct (aluShift_amount_in_range_bits 0x00000150 true
              (userState (fun i => if i =? 1 then 4 else 0x80000000) 0) H1 H2 H3)
    as (res & s' & Hrun & _ & _ & Hcarry).
  exists res, s'. split; [ exact Hrun | exact Hcarry ].
Defined.

(** ** Frames of the monadic code *)

Section Frames.
Variable R : ARM7TDMI -> ARM7TDMI -> Prop.
Hypothesis R_refl : forall s, R s s.
Hypothesis R_trans : forall s t u, R s t -> R t u -> R s u.

Lemma frame_ret {A : Type} (a : A) : preserves R (ret a).
Proof. intros s x s' H. injection H as _ <-. apply R_refl. Qed.

Lemma frame_gets {A : Type} (f : ARM7TDMI -> A) : preserves R (gets f).
Proof. intros s x s' H. injection H as _ <-. apply R_refl. Qed.

Lemma frame_lift {A : Type} (r : result A) : preserves R (lift r).
Proof.
  intros s x s' H. unfold lift in H. destruct r; [ | discriminate ].
  injection H as _ <-. apply R_refl.
Qed.

Lemma frame_assert (b : bool) : preserves R (assert b).
Proof.
  intros s x s' H. unfold assert in H. destruct b; [ | discriminate ].
  injection H as _ <-. apply R_refl.
Qed.

Lemma frame_modify (f : ARM7TDMI -> ARM7TDMI) :
  (forall s, R s (f s)) -> preserves R (modify f).
Proof. intros Hf s x s' H. injection H as _ <-. apply Hf. Qed.

Lemma frame_bind {A B : Type} (m : M A) (k : A -> M B) :
  preserves R m -> (forall a, preserves R (k a)) -> preserves R (bind m k).
Proof.
  intros Hm Hk s b s' H. unfold bind in H.
  destruct (m s) as [[a s1] | f] eqn:E; [ | discriminate ].
  eapply R_trans; [ eapply Hm; exact E | eapply Hk; exact H ].
Qed.
End Frames.

Lemma bind_inv {A B : Type} (m : M A) (k : A -> M B) (s s' : ARM7TDMI) (b : B) :
  bind m k s = Ok (b, s') ->
  exists a s1, m s = Ok (a, s1) /\ k a s1 = Ok (b, s').
Proof.
  unfold bind. intros H. destruct (m s) as [[a s1] | f]; [ | discriminate ].
  exists a, s1. split; [ reflexivity | exact H ].
Qed.

Lemma onlyCarryBit_refl (s : ARM7TDMI) : onlyCarryBit s s.
Proof. destruct s. reflexivity. Qed.

Lemma onlyCarryBit_trans (s t u : ARM7TDMI) :
  onlyCarryBit s t -> onlyCarryBit t u -> onlyCarryBit s u.
Proof. unfold onlyCarryBit. intros Ht Hu. rewrite Hu, Ht. reflexivity. Qed.

Lemma aluShift_onlyCarryBit (instruction : Z) (i r : bool) :
  preserves onlyCarryBit (aluShift instruction i r).
Proof.
  unfold aluShift, aluShiftRor, aluShiftLsl, aluShiftLsr, aluShiftAsr, readC.
  cbv zeta.
  repeat first
    [ apply (frame_bind _ onlyCarryBit_trans); [ | intros ? ]
    | apply (frame_ret _ onlyCarryBit_refl)
    | apply (frame_gets _ onlyCarryBit_refl)
    | apply (frame_lift _ onlyCarryBit_refl)
    | apply (frame_assert _ onlyCarryBit_refl)
    | apply frame_modify; intros ?; reflexivity
    | match goal with
      | |- preserves _ (if ?b then _ else _) => destruct b
      end ].
Qed.

Lemma aluShift_returns_stored_carry (instruction : Z) (i r : bool)
    (s s' : ARM7TDMI) (res : AluShiftResult) :
  aluShift instruction i r s = Ok (res, s') -> carry res = carryBit s'.
Proof.
  intros H. unfold aluShift in H. cbv zeta in H.
  destruct i;
    repeat (apply bind_inv in H; destruct H as (? & ? & ? & H));
    match goal with
    | Hg : gets carryBit _ = Ok _ |- _ => injection Hg as <- <-
    end;
    injection H as <- <-; reflexivity.
Qed.

(** X7.  Whenever aluShift completes, in either operand form, the end state
    is the start state with [carryBit] replaced by the carry it returns: it
    writes no register, no status word and no other flag variable. *)
Theorem aluShift_writes_only_carryBit (instruction : Z) (i r : bool)
    (s s' : ARM7TDMI) (res : AluShiftResult) :
  aluShift instruction i r s = Ok (res, s') -> s' = set_carryBit (carry res) s.
Proof.
  intros H.
  rewrite (aluShift_returns_stored_carry _ _ _ _ _ _ H).
  exact (aluShift_onlyCarryBit instruction i r s res s' H).
Qed.

Lemma aluShift_writes_only_carryBit_witness :
  aluShift 0x00000001 false false (userState (only 1 1) 1)
  = Ok (mkAluShiftResult 2 0, set_carryBit 0 (userState (only 1 1) 1))
  /\ set_carryBit 0 (userState (only 1 1) 1)
     = set_carryBit (carry (mkAluShiftResult 2 0)) (userState (only 1 1) 1).
Proof.
  assert (H : aluShift 0x00000001 false false (userState (only 1 1) 1)
              = Ok (mkAluShiftResult 2 0, set_carryBit 0 (userState (only 1 1) 1)))
    by reflexivity.
  split; [ exact H | ].
  exact (aluShift_writes_only_carryBit _ _ _ _ _ _ H).
Defined.

(** ** What the data-processing switch writes *)

Section SwitchFrame.
Variable R : ARM7TDMI -> ARM7TDMI -> Prop.
Hypothesis R_refl : forall s, R s s.
Hypothesis R_trans : forall s t u, R s t -> R t u -> R s u.

Lemma fallthrough_frame (cases : list (Z * (ARM7TDMI -> ARM7TDMI))) :
  Forall (fun c => forall s, R s (snd c s)) cases ->
  forall s, R s (fallthrough cases s).
Proof.
  induction cases as [ | [l body] cs IH]; intros Hcs s; simpl.
  - apply R_refl.
  - inversion Hcs as [ | c cs' Hc Hrest]; subst.
    eapply R_trans; [ apply (Hc s) | apply IH; exact Hrest ].
Qed.

Lemma switch_frame (cases : list (Z * (ARM7TDMI -> ARM7TDMI))) :
  Forall (fun c => forall s, R s (snd c s)) cases ->
  forall x s, R s (switch x cases s).
Proof.
  induction cases as [ | [l body] cs IH]; intros Hcs x s.
  - apply R_refl.
  - cbn [switch]. destruct (x =? l).
    + apply fallthrough_frame. exact Hcs.
    + apply IH. inversion Hcs; assumption.
Qed.
End SwitchFrame.

Section DestinationFrame.
Variable rd : Z.

(** Only the cell backing [rd] in the mode of the start state may differ. *)
Let onlyRd (s s' : ARM7TDMI) : Prop :=
  onlyCell (modeCell (psr_Mode (cpsr s)) (wrap8 rd)) s s'.

Lemma onlyRd_refl (s : ARM7TDMI) : onlyRd s s.
Proof. split; [ apply sameStatus_refl | reflexivity ]. Qed.

Lemma onlyRd_trans (s t u : ARM7TDMI) : onlyRd s t -> onlyRd t u -> onlyRd s u.
Proof.
  unfold onlyRd, onlyCell. intros [Hst Hregs1] [Htu Hregs2].
  split; [ eapply sameStatus_trans; eassumption | ].
  intros c Hc. destruct Hst as [Hcpsr _]. rewrite Hcpsr in Hregs2.
  rewrite Hregs2, Hregs1 by exact Hc. reflexivity.
Qed.

Lemma onlyRd_setRegister (value : Z) (s : ARM7TDMI) :
  onlyRd s (setRegister (wrap8 rd) value s).
Proof.
  split; [ apply setRegister_sameStatus | ].
  intros c Hc. rewrite setRegister_modeCell. cbn [regs set_regs].
  unfold store. rewrite Hc. reflexivity.
Qed.

Lemma onlyRd_setZeroSign (r : Z) (s : ARM7TDMI) : onlyRd s (setZeroSign r s).
Proof. split; [ apply setZeroSign_sameStatus | reflexivity ]. Qed.

Lemma onlyRd_setCarryOverflow (c v : bool) (s : ARM7TDMI) :
  onlyRd s (setCarryOverflow c v s).
Proof. split; [ apply setCarryOverflow_sameStatus | reflexivity ]. Qed.

Lemma alu_switch_onlyRd (opcode rnVal operand2 : Z) (s : ARM7TDMI) :
  onlyRd s (executeAluInstructionOperation opcode rd rnVal operand2 s).
Proof.
  unfold executeAluInstructionOperation.
  apply (switch_frame onlyRd onlyRd_refl onlyRd_trans).
  unfold aluCases.
  repeat (apply Forall_cons;
          [ cbn [snd]; intros t;
            unfold caseAND, caseEOR, caseSUB, caseRSB, caseADD, caseADC, caseSBC,
              caseRSC, caseTST, caseTEQ, caseCMP, caseCMN, caseORR, caseMOV,
              caseBIC, caseMVN; cbv zeta;
            repeat first
              [ apply onlyRd_refl
              | apply onlyRd_setRegister
              | eapply onlyRd_trans; [ | apply onlyRd_setCarryOverflow ]
              | eapply onlyRd_trans; [ | apply onlyRd_setZeroSign ]
              | eapply onlyRd_trans; [ | apply onlyRd_setRegister ] ] | ]).
  apply Forall_nil.
Qed.
End DestinationFrame.

Lemma alu_switch_no_label (opcode rd rnVal operand2 : Z) (s : ARM7TDMI) :
  15 < opcode <= 255 ->
  executeAluInstructionOperation opcode rd rnVal operand2 s = s.
Proof.
  intros H.
  unfold executeAluInstructionOperation, aluCases, AND, EOR, SUB, RSB, ADD, ADC,
    SBC, RSC, TST, TEQ, CMP, CMN, ORR, MOV, BIC, MVN.
  cbn [switch].
  repeat match goal with
         | |- context [opcode =? ?l] =>
             destruct (Z.eqb_spec opcode l); [ lia | ]
         end.
  reflexivity.
Qed.

(** X8.  For every opcode the [uint8_t] parameter can hold and every
    destination index 0..15, executeAluInstructionOperation leaves the
    current and saved status words as they were and changes no storage cell
    other than the one backing [rd] in the current mode.  An opcode 16..255
    matches no label, and the processor is left unchanged. *)
Theorem alu_switch_writes_only_rd (opcode rd rnVal operand2 : Z) (s : ARM7TDMI) :
  0 <= opcode <= 255 -> 0 <= rd <= 15 ->
  onlyCell (modeCell (psr_Mode (cpsr s)) rd) s
           (executeAluInstructionOperation opcode rd rnVal operand2 s)
  /\ (15 < opcode -> executeAluInstructionOperation opcode rd rnVal operand2 s = s).
Proof.
  intros Hop Hrd.
  split; [ | intros Hhigh; apply alu_switch_no_label; lia ].
  rewrite <- (wrap8_small rd) at 1 by lia.
  apply alu_switch_onlyRd.
Qed.

Lemma alu_switch_writes_only_rd_witness :
  0 <= ADD <= 255 /\ 0 <= 16 <= 255 /\ 0 <= 3 <= 15 /\ 15 < 16
  /\ regs (executeAluInstructionOperation ADD 3 7 9 (userState (only 2 4) 0))
          (Cell BUser 2)
     = regs (userState (only 2 4) 0) (Cell BUser 2)
  /\ executeAluInstructionOperation 16 3 7 9 (userState (only 2 4) 0)
     = userState (only 2 4) 0.
Proof.
  assert (Hadd : 0 <= ADD <= 255) by (unfold ADD; lia).
  assert (H16 : 0 <= 16 <= 255) by lia.
  assert (Hrd : 0 <= 3 <= 15) by lia.
  assert (H : 15 < 16) by lia.
  destruct (alu_switch_writes_only_rd ADD 3 7 9 (userState (only 2 4) 0) Hadd Hrd)
    as [[_ Hregs] _].
  destruct (alu_switch_writes_only_rd 16 3 7 9 (userState (only 2 4) 0) H16 Hrd)
    as [_ Hnone].
  split; [ exact Hadd | split; [ exact H16 | split; [ exact Hrd | ] ] ].
  split; [ exact H | split; [ | exact (Hnone H) ] ].
  apply Hregs. reflexivity.
Defined.

(** ** Carry and overflow variables after the switch *)

Lemma carry_overflow_setRegister (index value : Z) (s : ARM7TDMI) :
  carryBit (setRegister index value s) = carryBit s
  /\ overflowBit (setRegister index value s) = overflowBit s.
Proof. rewrite setRegister_modeCell. split; reflexivity. Qed.

Lemma carry_overflow_logical_write (rd result : Z) (s : ARM7TDMI) :
  carryBit (setZeroSign result (setRegister (wrap8 rd) result s)) = carryBit s
  /\ overflowBit (setZeroSign result (setRegister (wrap8 rd) result s))
     = overflowBit s.
Proof. exact (carry_overflow_setRegister (wrap8 rd) result s). Qed.

Lemma carry_overflow_after_CMN (rd rnVal operand2 : Z) (s : ARM7TDMI) :
  let s' := caseMVN rd operand2
              (caseBIC rd rnVal operand2
                 (caseMOV rd operand2
                    (caseORR rd rnVal operand2 (caseCMN rnVal operand2 s)))) in
  carryBit s' = Z.b2z (aluAddSetsCarryBit rnVal operand2)
  /\ overflowBit s'
     = Z.b2z (aluAddSetsOverflowBit rnVal operand2 (wrap32 (rnVal + operand2))).
Proof.
  cbv zeta. unfold caseMVN, caseBIC, caseMOV, caseORR. cbv zeta.
  repeat match goal with
         | |- context [setZeroSign ?v (setRegister (wrap8 rd) ?v ?t)] =>
             destruct (carry_overflow_logical_write rd v t) as [-> ->]
         end.
  split; reflexivity.
Qed.

Lemma carry_overflow_after_ORR (rd rnVal operand2 : Z) (s : ARM7TDMI) :
  forall s',
    In s' [ caseMVN rd operand2 s;
            caseMVN rd operand2 (caseBIC rd rnVal operand2 s);
            caseMVN rd operand2 (caseBIC rd rnVal operand2 (caseMOV rd operand2 s));
            caseMVN rd operand2
              (caseBIC rd rnVal operand2
                 (caseMOV rd operand2 (caseORR rd rnVal operand2 s))) ] ->
    carryBit s' = carryBit s /\ overflowBit s' = overflowBit s.
Proof.
  intros s' Hin. cbn [In] in Hin.
  destruct Hin as [<- | [<- | [<- | [<- | []]]]];
    unfold caseMVN, caseBIC, caseMOV, caseORR; cbv zeta;
    repeat match goal with
           | |- context [setZeroSign ?v (setRegister (wrap8 rd) ?v ?t)] =>
               destruct (carry_overflow_logical_write rd v t) as [-> ->]
           end;
    split; reflexivity.
Qed.

Lemma alu_suffix_through_CMN (n : nat) (rd rnVal operand2 : Z) (s : ARM7TDMI) :
  (n <= 11)%nat ->
  exists s0,
    fallthrough (skipn n (aluCases rd rnVal operand2)) s
    = caseMVN rd operand2
        (caseBIC rd rnVal operand2
           (caseMOV rd operand2
              (caseORR rd rnVal operand2 (caseCMN rnVal operand2 s0)))).
Proof.
  intros H.
  do 12 (destruct n as [ | n]; [ eexists; reflexivity | ]).
  lia.
Qed.

Lemma alu_suffix_after_CMN (n : nat) (rd rnVal operand2 : Z) (s : ARM7TDMI) :
  (12 <= n <= 15)%nat ->
  In (fallthrough (skipn n (aluCases rd rnVal operand2)) s)
     [ caseMVN rd operand2 s;
       caseMVN rd operand2 (caseBIC rd rnVal operand2 s);
       caseMVN rd operand2 (caseBIC rd rnVal operand2 (caseMOV rd operand2 s));
       caseMVN rd operand2
         (caseBIC rd rnVal operand2
            (caseMOV rd operand2 (caseORR rd rnVal operand2 s))) ].
Proof.
  intros H.
  do 12 (destruct n as [ | n]; [ lia | ]).
  destruct n as [ | n]; [ right; right; right; left; reflexivity | ].
  destruct n as [ | n]; [ right; right; left; reflexivity | ].
  destruct n as [ | n]; [ right; left; reflexivity | ].
  destruct n as [ | n]; [ left; reflexivity | ].
  lia.
Qed.

(** X9.  After executeAluInstructionOperation with an opcode 0..11 (AND to
    CMN) the carry and overflow variables are those of the sum rnVal + op2,
    because CMN is the last case that assigns them; with an opcode 12..15
    (ORR, MOV, BIC, MVN) they keep the values they had. *)
Theorem alu_switch_carry_overflow (opcode rd rnVal operand2 : Z) (s : ARM7TDMI) :
  0 <= opcode <= 15 ->
  let s' := executeAluInstructionOperation opcode rd rnVal operand2 s in
  if opcode <=? 11
  then carryBit s' = Z.b2z (aluAddSetsCarryBit rnVal operand2)
       /\ overflowBit s'
          = Z.b2z (aluAddSetsOverflowBit rnVal operand2 (wrap32 (rnVal + operand2)))
  else carryBit s' = carryBit s /\ overflowBit s' = overflowBit s.
Proof.
  intros H s'. subst s'.
  rewrite alu_switch_suffix by exact H.
  destruct (Z.leb_spec opcode 11) as [Hlow | Hhigh].
  - destruct (alu_suffix_through_CMN (Z.to_nat opcode) rd rnVal operand2 s)
      as [s0 E]; [ lia | ].
    rewrite E. apply carry_overflow_after_CMN.
  - apply (carry_overflow_after_ORR rd rnVal operand2 s).
    apply alu_suffix_after_CMN. lia.
Qed.

Lemma alu_switch_carry_overflow_witness :
  0 <= SUB <= 15
  /\ carryBit (executeAluInstructionOperation SUB 0 5 5 (userState (only 1 5) 0))
     = Z.b2z (aluAddSetsCarryBit 5 5).
Proof.
  assert (H : 0 <= SUB <= 15) by (unfold SUB; lia).
  split; [ exact H | ].
  pose proof (alu_switch_carry_overflow SUB 0 5 5 (userState (only 1 5) 0) H) as E.
  cbv zeta in E. change (SUB <=? 11) with true in E. cbv iota in E.
  exact (proj1 E).
Defined.

(** ** The instruction fields executeAluInstruction reads *)

Lemma land_outside_field (instruction k m : Z) :
  Z.land k 0x01E00000 = k -> Z.land 0x01E00000 m = 0 ->
  Z.land (Z.lxor instruction k) m = Z.land instruction m.
Proof.
  intros Hk Hm.
  assert (Hkm : Z.land k m = 0)
    by (rewrite <- Hk, <- Z.land_assoc, Hm; apply Z.land_0_r).
  apply Z.bits_inj'. intros i Hi.
  assert (Hbit : Z.testbit k i && Z.testbit m i = false)
    by (rewrite <- Z.land_spec, Hkm; apply Z.bits_0).
  rewrite !Z.land_spec, Z.lxor_spec.
  destruct (Z.testbit instruction i), (Z.testbit k i), (Z.testbit m i);
    try reflexivity; discriminate Hbit.
Qed.

(** X10.  executeAluInstruction takes its opcode from the low four bits of
    the word: flipping any of the bits 24..21, the opcode field of the
    instruction format, changes neither the outcome nor the end state. *)
Theorem executeAluInstruction_ignores_opcode_field (instruction k : Z) (s : ARM7TDMI) :
  Z.land k 0x01E00000 = k ->
  executeAluInstruction (Z.lxor instruction k) s = executeAluInstruction instruction s.
Proof.
  intros Hk. unfold executeAluInstruction, aluShift.
  rewrite !(land_outside_field instruction k _ Hk) by reflexivity.
  reflexivity.
Qed.

Lemma executeAluInstruction_ignores_opcode_field_witness :
  Z.land 0x01A00000 0x01E00000 = 0x01A00000
  /\ executeAluInstruction (Z.lxor 0xE2910001 0x01A00000)
       (userState (only 1 0x7FFFFFFF) 0)
     = executeAluInstruction 0xE2910001 (userState (only 1 0x7FFFFFFF) 0).
Proof.
  assert (Hk : Z.land 0x01A00000 0x01E00000 = 0x01A00000) by reflexivity.
  split; [ exact Hk | ].
  exact (executeAluInstruction_ignores_opcode_field 0xE2910001 0x01A00000
           (userState (only 1 0x7FFFFFFF) 0) Hk).
Defined.

(** ** The status register after executeAluInstruction *)

Lemma frame_modify_sameStatus_switch (opcode rd rnVal operand2 : Z) :
  preserves sameStatus (modify (executeAluInstructionOperation opcode rd rnVal operand2)).
Proof.
  apply preserves_modify. intros s.
  apply executeAluInstructionOperation_sameStatus.
Qed.

Lemma executeAluInstruction_without_S (instruction : Z) :
  truthy (Z.land instruction 0x00100000) = false ->
  preserves sameStatus (executeAluInstruction instruction).
Proof.
  intros HS. unfold executeAluInstruction. cbv zeta.
  rewrite HS, !andb_false_r.
  apply preserves_bind; [ apply aluShift_sameStatus | intros shiftResult ].
  apply preserves_bind;
    [ repeat first [ apply preserves_bind; [ | intros ? ]
                   | apply preserves_gets
                   | apply preserves_ret
                   | match goal with
                     | |- preserves _ (if ?b then _ else _) => destruct b
                     end ]
    | intros rnValue ].
  apply preserves_bind; [ apply preserves_gets | intros rnArg ].
  apply preserves_bind; [ apply frame_modify_sameStatus_switch | intros _ ].
  apply preserves_ret.
Qed.

(** X11.  A data-processing instruction without the S bit that completes
    leaves the current status register and the five saved status registers
    exactly as they were, whatever its destination and operands. *)
Theorem executeAluInstruction_S_clear (instruction : Z) (s : ARM7TDMI) :
  truthy (Z.land instruction 0x00100000) = false ->
  forall s', executeAluInstruction instruction s = Ok (tt, s') -> sameStatus s s'.
Proof.
  intros HS s' H.
  exact (executeAluInstruction_without_S instruction HS s tt s' H).
Qed.

Lemma executeAluInstruction_S_clear_witness :
  truthy (Z.land 0xE2810001 0x00100000) = false
  /\ (forall s',
        executeAluInstruction 0xE2810001 (userState (only 1 0x7FFFFFFF) 1) = Ok (tt, s') ->
        sameStatus (userState (only 1 0x7FFFFFFF) 1) s')
  /\ endsWith (executeAluInstruction 0xE2810001 (userState (only 1 0x7FFFFFFF) 1))
              (fun _ s' => statusFlags s' = (0, 0, 1, 0)).
Proof.
  assert (HS : truthy (Z.land 0xE2810001 0x00100000) = false) by reflexivity.
  split; [ exact HS | split ].
  - exact (executeAluInstruction_S_clear 0xE2810001
             (userState (only 1 0x7FFFFFFF) 1) HS).
  - vm_compute. reflexivity.
Defined.

Lemma executeAluInstruction_flag_shape (instruction : Z) (s s' : ARM7TDMI) :
  wrap8 (Z.shiftr (Z.land instruction 0x0000F000) 12) <> PC_REGISTER ->
  truthy (Z.land instruction 0x00100000) = true ->
  executeAluInstruction instruction s = Ok (tt, s') ->
  exists s2,
    sameStatus s s2
    /\ s' = set_cpsr
              (psr_set_V (overflowBit s2)
                 (psr_set_N (signBit s2)
                    (psr_set_Z (overflowBit s2)
                       (psr_set_C (carryBit s2) (cpsr s2))))) s2.
Proof.
  intros Hrd HS H. apply Z.eqb_neq in Hrd.
  unfold executeAluInstruction in H. cbv zeta in H.
  rewrite Hrd, HS in H. cbn [negb andb] in H.
  apply bind_inv in H. destruct H as (res & s1 & Hshift & H).
  apply aluShift_sameStatus in Hshift.
  apply bind_inv in H. destruct H as (rnValue & s1' & Hrn & H).
  assert (s1' = s1) as ->.
  { repeat match type of Hrn with
           | context [if ?b then _ else _] => destruct b
           end; unfold bind, gets, ret in Hrn; injection Hrn as _ <-; reflexivity. }
  apply bind_inv in H. destruct H as (rnArg & s1' & Harg & H).
  injection Harg as <- <-.
  apply bind_inv in H. destruct H as ([] & s2 & Hop & H).
  injection Hop as Hop.
  repeat (apply bind_inv in H;
          let Hm := fresh "Hm" in
          destruct H as ([] & ? & Hm & H); injection Hm as <-).
  injection H as <-.
  exists s2. split; [ | reflexivity ].
  rewrite <- Hop.
  eapply sameStatus_trans;
    [ exact Hshift | apply executeAluInstructionOperation_sameStatus ].
Qed.

(** X12.  A data-processing instruction with the S bit and a destination
    other than R15 that completes ends with C, N and V of the status
    register equal to the low bits of the carry, sign and overflow
    variables, and with Z equal to the low bit of the overflow variable, so
    Z = V.  The mode, the T, F, I, Q and reserved fields and the five saved
    status registers are unchanged. *)
Theorem executeAluInstruction_flag_update (instruction : Z) (s : ARM7TDMI) :
  wrap8 (Z.shiftr (Z.land instruction 0x0000F000) 12) <> PC_REGISTER ->
  truthy (Z.land instruction 0x00100000) = true ->
  forall s', executeAluInstruction instruction s = Ok (tt, s') ->
    flagFieldsFrom s' (cpsr s')
    /\ psr_Z (cpsr s') = psr_V (cpsr s')
    /\ controlFields (cpsr s') = controlFields (cpsr s)
    /\ (SPSR_fiq s', SPSR_svc s', SPSR_abt s', SPSR_irq s', SPSR_und s')
       = (SPSR_fiq s, SPSR_svc s, SPSR_abt s, SPSR_irq s, SPSR_und s).
Proof.
  intros Hrd HS s' H.
  destruct (executeAluInstruction_flag_shape instruction s s' Hrd HS H)
    as (s2 & (Hc & H1 & H2 & H3 & H4 & H5) & ->).
  split; [ repeat split | ].
  split; [ reflexivity | ].
  split.
  - unfold controlFields. cbn. rewrite Hc. reflexivity.
  - cbn. rewrite H1, H2, H3, H4, H5. reflexivity.
Qed.

Lemma executeAluInstruction_flag_update_witness :
  wrap8 (Z.shiftr (Z.land 0xE2910001 0x0000F000) 12) <> PC_REGISTER
  /\ truthy (Z.land 0xE2910001 0x00100000) = true
  /\ (forall s',
        executeAluInstruction 0xE2910001 (userState (only 1 0x7FFFFFFF) 0) = Ok (tt, s') ->
        psr_Z (cpsr s') = psr_V (cpsr s')).
Proof.
  assert (Hrd : wrap8 (Z.shiftr (Z.land 0xE2910001 0x0000F000) 12) <> PC_REGISTER)
    by discriminate.
  assert (HS : truthy (Z.land 0xE2910001 0x00100000) = true) by reflexivity.
  split; [ exact Hrd | split; [ exact HS | ] ].
  intros s' H.
  exact (proj1 (proj2 (executeAluInstruction_flag_update 0xE2910001
                         (userState (only 1 0x7FFFFFFF) 0) Hrd HS s' H))).
Defined.

(** ** Repeated steps *)

Lemma step_state (bus : Z -> Z) (s : ARM7TDMI) : fst (step bus s) = s.
Proof.
  unfold step. rewrite executeInstruction_returns.
  destruct (truthy (psr_T (cpsr s))); reflexivity.
Qed.

(** X13.  Whatever the T bit, a call of step returns the processor it was
    given: no register is written and the program counter is not advanced.
    Any number of steps in a row therefore ends in the start state, and each
    of them begins with a bus read at the same address, the stored R15. *)
Theorem step_never_advances (bus : Z -> Z) (s : ARM7TDMI) (n : nat) :
  Nat.iter n (fun t => fst (step bus t)) s = s
  /\ exists rest,
       snd (step bus (Nat.iter n (fun t => fst (step bus t)) s))
       = BusRead (regs s (Cell BUser PC_REGISTER)) :: rest.
Proof.
  assert (E : Nat.iter n (fun t => fst (step bus t)) s = s).
  { induction n as [ | n IH]; [ reflexivity | ].
    rewrite Nat.iter_succ, IH. apply step_state. }
  split; [ exact E | ].
  rewrite E. unfold step. rewrite executeInstruction_returns.
  destruct (truthy (psr_T (cpsr s))); eexists; reflexivity.
Qed.

(** ** The carry-in forms *)

Lemma no_bit_above_31 (x : Z) : Z.shiftr (wrap32 x) 32 = 0.
Proof.
  rewrite Z.shiftr_div_pow2 by lia. apply Z.div_small.
  unfold wrap32. apply Z.mod_pos_bound. lia.
Qed.

(** X14.  In the ADC, SBC and RSC cases the sum is formed in 32 bits and
    only then widened, so it never has a bit above bit 31: the carry
    variable the ADC case assigns is always 0, and the one the SBC and RSC
    cases assign is always 1, whatever the operands and the carry flag. *)
Theorem carry_in_forms_carry (rd rnVal operand2 : Z) (s : ARM7TDMI) :
  carryBit (caseADC rd rnVal operand2 s) = 0
  /\ carryBit (caseSBC rd rnVal operand2 s) = 1
  /\ carryBit (caseRSC rd rnVal operand2 s) = 1.
Proof.
  unfold caseADC, caseSBC, caseRSC, setCarryOverflow. cbv zeta.
  cbn [carryBit set_overflowBit set_carryBit].
  unfold aluAddWithCarrySetsCarryBit, aluSubWithCarrySetsCarryBit.
  rewrite !no_bit_above_31. repeat split.
Qed.

(** ** Register writes read back *)

Lemma modeCell_unbanked (mode index : Z) :
  mode = USER \/ mode = SYSTEM -> modeCell mode index = Cell BUser index.
Proof. intros [-> | ->]; reflexivity. Qed.

(** X15.  For a register index 0..15 and in every mode, a value written
    through setRegister reads back through getRegister, and the write
    changes no status word and no flag variable.  In User and System mode,
    where the code indexes the array [registers] directly, every other
    register index 0..15 reads as before. *)
Theorem setRegister_read_back (index other value : Z) (s : ARM7TDMI) :
  0 <= index <= 15 -> 0 <= other <= 15 ->
  getRegister index (setRegister index value s) = value
  /\ sameStatus s (setRegister index value s)
  /\ flagVariables (setRegister index value s) = flagVariables s
  /\ (psr_Mode (cpsr s) = USER \/ psr_Mode (cpsr s) = SYSTEM ->
      other <> index ->
      getRegister other (setRegister index value s) = getRegister other s).
Proof.
  intros Hindex Hother.
  split; [ apply getRegister_setRegister | ].
  split; [ apply setRegister_sameStatus | ].
  split; [ rewrite setRegister_modeCell; reflexivity | ].
  intros Hmode Hne.
  rewrite (getRegister_modeCell other), (getRegister_modeCell other s).
  rewrite setRegister_modeCell. cbn [cpsr regs set_regs].
  rewrite !modeCell_unbanked by exact Hmode.
  unfold store. cbn [cell_eqb bank_eqb andb].
  destruct (Z.eqb_spec other index); [ contradiction | reflexivity ].
Qed.

Lemma setRegister_read_back_witness :
  0 <= 13 <= 15 /\ 0 <= 2 <= 15
  /\ getRegister 13 (setRegister 13 9 (bankedState IRQ)) = 9
  /\ sameStatus (bankedState IRQ) (setRegister 13 9 (bankedState IRQ))
  /\ getRegister 13 (setRegister 13 9 (userState (only 2 4) 0)) = 9
  /\ getRegister 2 (setRegister 13 9 (userState (only 2 4) 0))
     = getRegister 2 (userState (only 2 4) 0).
Proof.
  assert (Hi : 0 <= 13 <= 15) by lia.
  assert (Ho : 0 <= 2 <= 15) by lia.
  assert (Hm : psr_Mode (cpsr (userState (only 2 4) 0)) = USER
               \/ psr_Mode (cpsr (userState (only 2 4) 0)) = SYSTEM)
    by (left; reflexivity).
  assert (Hne : 2 <> 13) by discriminate.
  destruct (setRegister_read_back 13 2 9 (bankedState IRQ) Hi Ho)
    as (Hirq & Hstatus & _ & _).
  destruct (setRegister_read_back 13 2 9 (userState (only 2 4) 0) Hi Ho)
    as (Hread & _ & _ & Hframe).
  split; [ exact Hi | split; [ exact Ho | ] ].
  split; [ exact Hirq | split; [ exact Hstatus | ] ].
  split; [ exact Hread | exact (Hframe Hm Hne) ].
Defined.

(** ** aluShiftRrx *)

Lemma aluShiftRrx_value (value shift : Z) (s : ARM7TDMI) :
  0 <= shift < 32 ->
  aluShiftRrx value shift s
  = Ok (Z.lor (Z.lor (Z.shiftr value shift)
                     (wrap32 (Z.shiftl value ((32 - shift) mod 32))))
              (wrap32 (Z.shiftl (wrap32 (psr_C (cpsr s))) 31)), s).
Proof.
  intros H. unfold aluShiftRrx.
  assert (Hlt : (shift <? 32) = true) by (apply Z.ltb_lt; lia).
  rewrite Hlt, rotate_left_count by exact H.
  rewrite shr32_ok by exact H.
  rewrite shl32_ok by (apply Z.mod_pos_bound; lia).
  unfold bind, assert, gets, lift, ret.
  rewrite shl32_ok by lia. reflexivity.
Qed.

Lemma carry_mask_bit (c i : Z) :
  c = 0 \/ c = 1 -> 0 <= i < 32 ->
  Z.testbit (wrap32 (Z.shiftl (wrap32 c) 31)) i = (i =? 31) && (c =? 1).
Proof.
  intros Hc Hi. unfold wrap32 at 1.
  rewrite Z.testbit_mod_pow2 by lia.
  assert (Hlt : (i <? 32) = true) by (apply Z.ltb_lt; lia).
  rewrite Hlt. cbn [andb]. rewrite Z.shiftl_spec by lia.
  destruct (Z.eqb_spec i 31) as [-> | Hne].
  - destruct Hc as [-> | ->]; reflexivity.
  - cbn [andb]. apply Z.testbit_neg_r. lia.
Qed.

(** X16.  For a 32-bit value, a count below 32 and a carry flag of 0 or 1,
    aluShiftRrx completes without touching the processor.  Bits 0..30 of
    its result are those of the rotation by the count; bit 31 is the rotated
    bit or-ed with the carry flag.  With the carry flag clear it returns
    what aluShiftRor returns. *)
Theorem aluShiftRrx_bits (value shift : Z) (s : ARM7TDMI) :
  u32 value -> 0 <= shift < 32 ->
  psr_C (cpsr s) = 0 \/ psr_C (cpsr s) = 1 ->
  exists v,
    aluShiftRrx value shift s = Ok (v, s)
    /\ (forall i, 0 <= i < 31 ->
                  Z.testbit v i = Z.testbit value ((i + shift) mod 32))
    /\ Z.testbit v 31
       = Z.testbit value ((31 + shift) mod 32) || (psr_C (cpsr s) =? 1)
    /\ (psr_C (cpsr s) = 0 -> aluShiftRor value shift s = Ok (v, s)).
Proof.
  intros Hv Hs Hc.
  eexists. split; [ apply aluShiftRrx_value; exact Hs | ].
  split; [ | split ].
  - intros i Hi. rewrite Z.lor_spec.
    rewrite rotated_bit by (assumption || lia).
    rewrite carry_mask_bit by (assumption || lia).
    destruct (Z.eqb_spec i 31); [ lia | ]. apply orb_false_r.
  - rewrite Z.lor_spec.
    rewrite rotated_bit by (assumption || lia).
    rewrite carry_mask_bit by (assumption || lia). reflexivity.
  - intros H0. rewrite H0. rewrite aluShiftRor_value by exact Hs.
    change (wrap32 (Z.shiftl (wrap32 0) 31)) with 0.
    rewrite Z.lor_0_r. reflexivity.
Qed.

Lemma aluShiftRrx_bits_witness :
  u32 0x00000001 /\ 0 <= 1 < 32
  /\ (psr_C (cpsr (userState (only 0 0) 1)) = 0
      \/ psr_C (cpsr (userState (only 0 0) 1)) = 1)
  /\ exists v,
       aluShiftRrx 0x00000001 1 (userState (only 0 0) 1)
       = Ok (v, userState (only 0 0) 1)
       /\ Z.testbit v 31
          = Z.testbit 0x00000001 ((31 + 1) mod 32)
            || (psr_C (cpsr (userState (only 0 0) 1)) =? 1).
Proof.
  assert (Hv : u32 0x00000001) by (unfold u32; lia).
  assert (Hs : 0 <= 1 < 32) by lia.
  assert (Hc : psr_C (cpsr (userState (only 0 0) 1)) = 0
               \/ psr_C (cpsr (userState (only 0 0) 1)) = 1)
    by (right; reflexivity).
  split; [ exact Hv | split; [ exact Hs | split; [ exact Hc | ] ] ].
  destruct (aluShiftRrx_bits 0x00000001 1 (userState (only 0 0) 1) Hv Hs Hc)
    as (v & Hrun & _ & Htop & _).
  exists v. split; [ exact Hrun | exact Htop ].
Defined.
